(** * geonames.api_url: the URL builder of the GeoNames web services

    A shallow embedding of [src/geonames/api_url.py] (class [APIUrl]) and
    the properties of the URLs its endpoint methods return.

    Conventions of the embedding.
    - A Python [str] is the [string] of its UTF-8 bytes, which is what
      [urlencode(..., encoding="utf-8")] quotes.  Strings that cannot be
      encoded (lone surrogates) are outside the model.
    - Arguments range over [pyval]: [None], [bool], [int], [float], [str]
      and [datetime.date], the types the docstrings name.  The parameters
      documented as "str or list" range over [pyarg], which adds lists.
    - A method is a computation in [Py]: it receives the object [self],
      gives it back, and either returns a value or raises.
    - [assert] statements are executed (no [-O]). *)

From Stdlib Require Import Bool Arith ZArith List Lia.
From Stdlib Require Import Strings.Ascii Strings.String Numbers.DecimalString.
Import ListNotations.
Open Scope list_scope.
Open Scope string_scope.

(** ** Python values *)

(** A [float] is identified by the text [str] gives for it ("51.2277",
    "0.0", "-0.0", "nan", ...); the only falsy floats are the two zeros. *)
Inductive pyval : Type :=
| PyNone
| PyBool (b : bool)
| PyInt (z : Z)
| PyFloat (repr : string)
| PyStr (s : string)
| PyDate (year month day : nat).

(** An argument that may also be a list of values. *)
Inductive pyarg : Type :=
| One (v : pyval)
| Many (l : list pyval).

Definition is_none (v : pyval) : bool :=
  match v with PyNone => true | _ => false end.

(** [bool(v)], as [if v:], [any], [all], [or] and [assert v] test it. *)
Definition truthy (v : pyval) : bool :=
  match v with
  | PyNone => false
  | PyBool b => b
  | PyInt z => negb (Z.eqb z 0)
  | PyFloat r => negb (String.eqb r "0.0" || String.eqb r "-0.0")
  | PyStr s => negb (String.eqb s "")
  | PyDate _ _ _ => true
  end.

Definition any (l : list pyval) : bool := existsb truthy l.
Definition all (l : list pyval) : bool := forallb truthy l.

(** [None not in (v1, ..., vn)] *)
Definition none_not_in (l : list pyval) : bool := forallb (fun v => negb (is_none v)) l.

Definition string_of_nat (n : nat) : string := NilZero.string_of_uint (Nat.to_uint n).
Definition string_of_Z (z : Z) : string := NilZero.string_of_int (Z.to_int z).

(** [n] in decimal, zero-padded on the left to [width] digits. *)
Fixpoint zeros (n : nat) : string :=
  match n with O => "" | S n' => String "0" (zeros n') end.

Definition zero_pad (width n : nat) : string :=
  let s := string_of_nat n in zeros (width - String.length s) ++ s.

(** [d.isoformat()], which is [str(d)]: the year takes four digits. *)
Definition isoformat (year month day : nat) : string :=
  zero_pad 4 year ++ "-" ++ zero_pad 2 month ++ "-" ++ zero_pad 2 day.

(** [d.strftime("%Y-%m-%d")]: the C library formats the fields, and its [%Y]
    is the year in decimal without padding (999-01-02 for the second day of
    the year 999), while [%m] and [%d] take two digits.  From the year 1000
    on this is the text of [isoformat]. *)
Definition strftime_ymd (year month day : nat) : string :=
  string_of_nat year ++ "-" ++ zero_pad 2 month ++ "-" ++ zero_pad 2 day.

(** [str(v)] *)
Definition str (v : pyval) : string :=
  match v with
  | PyNone => "None"
  | PyBool true => "True"
  | PyBool false => "False"
  | PyInt z => string_of_Z z
  | PyFloat r => r
  | PyStr s => s
  | PyDate y m d => isoformat y m d
  end.

(** ** Strings: [str.upper] and [urllib.parse.urlencode] *)

Definition upper_ascii (c : ascii) : ascii :=
  let n := nat_of_ascii c in
  if ((97 <=? n) && (n <=? 122))%nat then ascii_of_nat (n - 32) else c.

(** [s.upper()] on the UTF-8 bytes of [s]: the ASCII letters, and the two
    code points outside ASCII that Python maps onto an ASCII letter (U+017F,
    bytes C5 BF, onto S and U+0131, bytes C4 B1, onto I).  Other code points
    outside ASCII are left as they are: Python may change them, but never
    into text that equals an ASCII word, and the source only compares the
    result with "JSON" and "CSV". *)
Fixpoint upper (s : string) : string :=
  match s with
  | EmptyString => EmptyString
  | String c rest =>
      match rest with
      | String d rest' =>
          if Ascii.eqb c "197" && Ascii.eqb d "191" then String "S" (upper rest')
          else if Ascii.eqb c "196" && Ascii.eqb d "177" then String "I" (upper rest')
          else String (upper_ascii c) (upper rest)
      | EmptyString => String (upper_ascii c) EmptyString
      end
  end.

(** The bytes [quote] never escapes: letters, digits and [_.-~]. *)
Definition always_safe (c : ascii) : bool :=
  let n := nat_of_ascii c in
  ((65 <=? n) && (n <=? 90))%nat || ((97 <=? n) && (n <=? 122))%nat ||
  ((48 <=? n) && (n <=? 57))%nat ||
  Ascii.eqb c "_" || Ascii.eqb c "." || Ascii.eqb c "-" || Ascii.eqb c "~".

Definition hex_digit (n : nat) : ascii :=
  if (n <? 10)%nat then ascii_of_nat (48 + n) else ascii_of_nat (55 + n).

(** One byte through [quote_plus]: kept, a space turned into [+], or [%XX]. *)
Definition quote_byte (c : ascii) : string :=
  if always_safe c then String c ""
  else if Ascii.eqb c " " then "+"
  else let n := nat_of_ascii c in
       String "%" (String (hex_digit (n / 16)) (String (hex_digit (n mod 16)) "")).

(** [quote_plus(s, safe='', encoding="utf-8")] *)
Fixpoint quote_plus (s : string) : string :=
  match s with
  | EmptyString => EmptyString
  | String c rest => quote_byte c ++ quote_plus rest
  end.

(** ['&'.join(l)] and friends. *)
Fixpoint join (sep : string) (l : list string) : string :=
  match l with
  | [] => ""
  | [x] => x
  | x :: rest => x ++ sep ++ join sep rest
  end.

Definition quote_pair (kv : string * string) : string * string :=
  (quote_plus (fst kv), quote_plus (snd kv)).

(** [urlencode(keys, encoding="utf-8")] on a list of pairs of [str]. *)
Definition urlencode (keys : list (string * string)) : string :=
  join "&" (map (fun kv => quote_plus (fst kv) ++ "=" ++ quote_plus (snd kv)) keys).

(** ** The object and the computations on it *)

(** The attributes [__init__] sets. *)
Record APIUrl : Type := {
  username : string;
  _base_url : string;
  default_output_format : string
}.

Inductive exn : Type := AssertionError | TypeError | AttributeError.

Inductive result (A : Type) : Type :=
| Ok (a : A)
| Raise (e : exn).
Arguments Ok {A} a.
Arguments Raise {A} e.

Definition is_ok {A} (r : result A) : bool :=
  match r with Ok _ => true | Raise _ => false end.

(** A method body: from the object before the call to the object after it
    and the outcome. *)
Definition Py (A : Type) : Type := APIUrl -> APIUrl * result A.

Definition ret {A} (a : A) : Py A := fun self => (self, Ok a).
Definition raise {A} (e : exn) : Py A := fun self => (self, Raise e).
Definition bind {A B} (m : Py A) (k : A -> Py B) : Py B :=
  fun self =>
    match m self with
    | (self', Ok a) => k a self'
    | (self', Raise e) => (self', Raise e)
    end.
(** Reading the attributes of [self]. *)
Definition get_self : Py APIUrl := fun self => (self, Ok self).
(** [assert b] *)
Definition assert_ (b : bool) : Py unit :=
  if b then ret tt else raise AssertionError.
Definition lift {A} (r : result A) : Py A := fun self => (self, r).

Declare Scope py_scope.
Delimit Scope py_scope with py.
Notation "x <- m ;; k" := (bind m (fun x => k))
  (at level 61, m at next level, right associativity) : py_scope.
Notation "m ;; k" := (bind m (fun _ => k))
  (at level 61, right associativity) : py_scope.
Notation "' pat <- m ;; k" := (bind m (fun x => match x with pat => k end))
  (at level 61, pat pattern, m at next level, right associativity) : py_scope.
Open Scope py_scope.

Definition outcome {A} (m : Py A) (self : APIUrl) : result A := snd (m self).
Definition self_after {A} (m : Py A) (self : APIUrl) : APIUrl := fst (m self).

(** ** Private methods *)

Definition keys_t : Type := list (string * string).

Definition _create_base_url (secure : pyval) : string :=
  if truthy secure then "https://secure.geonames.org/"
  else "http://api.geonames.org/".

(** [v.upper()]: only a [str] has the method. *)
Definition py_upper (v : pyval) : result string :=
  match v with
  | PyStr s => Ok (upper s)
  | _ => Raise AttributeError
  end.

Fixpoint upper_each (l : list pyval) : result (list string) :=
  match l with
  | [] => Ok []
  | f :: rest =>
      match py_upper f with
      | Ok u => match upper_each rest with
                | Ok us => Ok (u :: us)
                | Raise e => Raise e
                end
      | Raise e => Raise e
      end
  end.

(** The normalisation of [additional_output_formats]: [None] stays [None],
    a [str] becomes the list of its upper-cased self, a list is upper-cased
    element by element; any other value cannot be iterated. *)
Definition upper_formats (additional : pyarg) : result (option (list string)) :=
  match additional with
  | One PyNone => Ok None
  | One (PyStr s) => Ok (Some [upper s])
  | One _ => Raise TypeError
  | Many l => match upper_each l with
              | Ok us => Ok (Some us)
              | Raise e => Raise e
              end
  end.

(** [u in formats], a [TypeError] when [formats] is [None]. *)
Definition py_in (u : string) (formats : option (list string)) : result bool :=
  match formats with
  | None => Raise TypeError
  | Some l => Ok (existsb (String.eqb u) l)
  end.

Definition _create_bare_end_point (secure : pyval) (end_point : string)
    (output_format : pyval) (additional_output_formats : pyarg)
  : Py (string * keys_t) :=
  self <- get_self ;;
  let base_url := if truthy secure then _create_base_url secure else _base_url self in
  let url := base_url ++ end_point in
  url <- (if truthy output_format then
            u <- lift (py_upper output_format) ;;
            let url := if String.eqb u "JSON" then url ++ "JSON" else url in
            formats <- lift (upper_formats additional_output_formats) ;;
            csv <- (if String.eqb u "CSV" then lift (py_in u formats) else ret false) ;;
            ret (if csv then url ++ "CSV" else url)
          else
            ret (if String.eqb (default_output_format self) "JSON"
                 then url ++ "JSON" else url)) ;;
  let url := url ++ "?" in
  let keys := [("username", username self)] in
  ret (url, keys).

(** [keys.append((key, str(value)))] unless [value] is [None]; the list is
    passed on explicitly. *)
Definition _add_key_value (keys : keys_t) (key : string) (value : pyval) : keys_t :=
  if is_none value then keys else (keys ++ [(key, str value)])%list.

Definition _add_date (keys : keys_t) (date_to_add : pyval) : keys_t :=
  let date_to_add :=
    match date_to_add with
    | PyDate y m d => PyStr (strftime_ymd y m d)
    | _ => date_to_add
    end in
  _add_key_value keys "date" date_to_add.

(** The loop the source repeats for [country], [feature_class] and
    [feature_code]:
      if x is not None:
          if isinstance(x, str): x = [x]
          for c in x: self._add_key_value(keys, key=key, value=c)
    A value that is neither [None], a [str] nor a list cannot be iterated. *)
Definition add_each (keys : keys_t) (key : string) (x : pyarg) : result keys_t :=
  match x with
  | One PyNone => Ok keys
  | One (PyStr s) => Ok (_add_key_value keys key (PyStr s))
  | One _ => Raise TypeError
  | Many l => Ok (fold_left (fun ks c => _add_key_value ks key c) l keys)
  end.

(** ** The constructor *)

Definition isinstance_str (v : pyval) : bool :=
  match v with PyStr _ => true | _ => false end.
Definition isinstance_bool (v : pyval) : bool :=
  match v with PyBool _ => true | _ => false end.
(** [v in ["JSON", "XML"]] *)
Definition in_strings (v : pyval) (l : list string) : bool :=
  match v with PyStr s => existsb (String.eqb s) l | _ => false end.

Definition __init__ (username secure default_output_format : pyval) : result APIUrl :=
  if negb (isinstance_str username) then Raise AssertionError
  else if negb (isinstance_bool secure) then Raise AssertionError
  else if negb (in_strings default_output_format ["JSON"; "XML"]) then Raise AssertionError
  else Ok {| username := str username;
             _base_url := _create_base_url secure;
             default_output_format := str default_output_format |}.

(** ** Endpoint methods *)

(** The keyword arguments of [search], all of which default to [None]. *)
Module SearchArgs.
Record t : Type := {
  q : pyval; name : pyval; name_equals : pyval; name_starts_with : pyval;
  max_rows : pyval; start_row : pyval; country : pyarg; country_bias : pyval;
  continent_code : pyval; admin_code1 : pyval; admin_code2 : pyval;
  admin_code3 : pyval; feature_class : pyarg; feature_code : pyarg;
  cities : pyval; language : pyval; style : pyval; is_name_required : pyval;
  tag : pyval; operator : pyval; charset : pyval; fuzzy : pyval;
  north : pyval; east : pyval; south : pyval; west : pyval;
  search_language : pyval; order_by : pyval; include_bbox : pyval;
  secure : pyval; output_format : pyval
}.

Definition defaults : t := {|
  q := PyNone; name := PyNone; name_equals := PyNone; name_starts_with := PyNone;
  max_rows := PyNone; start_row := PyNone; country := One PyNone;
  country_bias := PyNone; continent_code := PyNone; admin_code1 := PyNone;
  admin_code2 := PyNone; admin_code3 := PyNone; feature_class := One PyNone;
  feature_code := One PyNone; cities := PyNone; language := PyNone;
  style := PyNone; is_name_required := PyNone; tag := PyNone; operator := PyNone;
  charset := PyNone; fuzzy := PyNone; north := PyNone; east := PyNone;
  south := PyNone; west := PyNone; search_language := PyNone; order_by := PyNone;
  include_bbox := PyNone; secure := PyNone; output_format := PyNone
|}.

(** The same call with other values for the four edges of the box. *)
Definition with_bbox (n e s w : pyval) (a : t) : t := {|
  q := q a; name := name a; name_equals := name_equals a;
  name_starts_with := name_starts_with a; max_rows := max_rows a;
  start_row := start_row a; country := country a; country_bias := country_bias a;
  continent_code := continent_code a; admin_code1 := admin_code1 a;
  admin_code2 := admin_code2 a; admin_code3 := admin_code3 a;
  feature_class := feature_class a; feature_code := feature_code a;
  cities := cities a; language := language a; style := style a;
  is_name_required := is_name_required a; tag := tag a; operator := operator a;
  charset := charset a; fuzzy := fuzzy a;
  north := n; east := e; south := s; west := w;
  search_language := search_language a; order_by := order_by a;
  include_bbox := include_bbox a; secure := secure a;
  output_format := output_format a
|}.

Definition with_q (v : pyval) (a : t) : t := {|
  q := v; name := name a; name_equals := name_equals a;
  name_starts_with := name_starts_with a; max_rows := max_rows a;
  start_row := start_row a; country := country a; country_bias := country_bias a;
  continent_code := continent_code a; admin_code1 := admin_code1 a;
  admin_code2 := admin_code2 a; admin_code3 := admin_code3 a;
  feature_class := feature_class a; feature_code := feature_code a;
  cities := cities a; language := language a; style := style a;
  is_name_required := is_name_required a; tag := tag a; operator := operator a;
  charset := charset a; fuzzy := fuzzy a;
  north := north a; east := east a; south := south a; west := west a;
  search_language := search_language a; order_by := order_by a;
  include_bbox := include_bbox a; secure := secure a;
  output_format := output_format a
|}.

Definition with_country (v : pyarg) (a : t) : t := {|
  q := q a; name := name a; name_equals := name_equals a;
  name_starts_with := name_starts_with a; max_rows := max_rows a;
  start_row := start_row a; country := v; country_bias := country_bias a;
  continent_code := continent_code a; admin_code1 := admin_code1 a;
  admin_code2 := admin_code2 a; admin_code3 := admin_code3 a;
  feature_class := feature_class a; feature_code := feature_code a;
  cities := cities a; language := language a; style := style a;
  is_name_required := is_name_required a; tag := tag a; operator := operator a;
  charset := charset a; fuzzy := fuzzy a;
  north := north a; east := east a; south := south a; west := west a;
  search_language := search_language a; order_by := order_by a;
  include_bbox := include_bbox a; secure := secure a;
  output_format := output_format a
|}.

Definition with_feature_code (v : pyarg) (a : t) : t := {|
  q := q a; name := name a; name_equals := name_equals a;
  name_starts_with := name_starts_with a; max_rows := max_rows a;
  start_row := start_row a; country := country a; country_bias := country_bias a;
  continent_code := continent_code a; admin_code1 := admin_code1 a;
  admin_code2 := admin_code2 a; admin_code3 := admin_code3 a;
  feature_class := feature_class a; feature_code := v;
  cities := cities a; language := language a; style := style a;
  is_name_required := is_name_required a; tag := tag a; operator := operator a;
  charset := charset a; fuzzy := fuzzy a;
  north := north a; east := east a; south := south a; west := west a;
  search_language := search_language a; order_by := order_by a;
  include_bbox := include_bbox a; secure := secure a;
  output_format := output_format a
|}.
End SearchArgs.

Definition search (a : SearchArgs.t) : Py string :=
  assert_ (any [SearchArgs.q a; SearchArgs.name a; SearchArgs.name_equals a]) ;;
  self <- get_self ;;
  let base_url := if truthy (SearchArgs.secure a)
                  then _create_base_url (SearchArgs.secure a)
                  else _base_url self in
  let url := base_url ++ "search?" in
  let keys := [("username", username self)] in
  let keys := _add_key_value keys "q" (SearchArgs.q a) in
  let keys := _add_key_value keys "name" (SearchArgs.name a) in
  let keys := _add_key_value keys "name_equals" (SearchArgs.name_equals a) in
  let keys := _add_key_value keys "name_startsWith" (SearchArgs.name_starts_with a) in
  let keys := _add_key_value keys "maxRows" (SearchArgs.max_rows a) in
  let keys := _add_key_value keys "startRow" (SearchArgs.start_row a) in
  keys <- lift (add_each keys "country" (SearchArgs.country a)) ;;
  let keys := _add_key_value keys "countryBias" (SearchArgs.country_bias a) in
  let keys := _add_key_value keys "continentCode" (SearchArgs.continent_code a) in
  let keys := _add_key_value keys "adminCode1" (SearchArgs.admin_code1 a) in
  let keys := _add_key_value keys "adminCode2" (SearchArgs.admin_code2 a) in
  let keys := _add_key_value keys "adminCode3" (SearchArgs.admin_code3 a) in
  keys <- lift (add_each keys "featureClass" (SearchArgs.feature_class a)) ;;
  keys <- lift (add_each keys "featureCode" (SearchArgs.feature_code a)) ;;
  let keys := _add_key_value keys "cities" (SearchArgs.cities a) in
  let keys := _add_key_value keys "lang" (SearchArgs.language a) in
  let keys := _add_key_value keys "style" (SearchArgs.style a) in
  let keys := _add_key_value keys "isNameRequired" (SearchArgs.is_name_required a) in
  let keys := _add_key_value keys "tag" (SearchArgs.tag a) in
  let keys := _add_key_value keys "operator" (SearchArgs.operator a) in
  let keys := _add_key_value keys "charset" (SearchArgs.charset a) in
  let keys := _add_key_value keys "fuzzy" (SearchArgs.fuzzy a) in
  let keys :=
    if none_not_in [SearchArgs.north a; SearchArgs.east a; SearchArgs.south a; SearchArgs.west a]
    then
      let keys := _add_key_value keys "north" (SearchArgs.north a) in
      let keys := _add_key_value keys "east" (SearchArgs.east a) in
      let keys := _add_key_value keys "south" (SearchArgs.south a) in
      _add_key_value keys "west" (SearchArgs.west a)
    else keys in
  let keys := _add_key_value keys "searchlang" (SearchArgs.search_language a) in
  let keys := _add_key_value keys "orderby" (SearchArgs.order_by a) in
  let keys := _add_key_value keys "inclBbox" (SearchArgs.include_bbox a) in
  let output_format :=
    if is_none (SearchArgs.output_format a)
    then PyStr (default_output_format self)
    else SearchArgs.output_format a in
  let keys := _add_key_value keys "type" output_format in
  ret (url ++ urlencode keys).

Definition cities_and_place_names_bounding_box
    (north east south west language max_rows secure output_format : pyval) : Py string :=
  '(url, keys) <- _create_bare_end_point secure "cities" output_format (One PyNone) ;;
  assert_ (none_not_in [north; east; south; west]) ;;
  let keys := _add_key_value keys "north" north in
  let keys := _add_key_value keys "east" east in
  let keys := _add_key_value keys "south" south in
  let keys := _add_key_value keys "west" west in
  let keys := _add_key_value keys "lang" language in
  let keys := _add_key_value keys "maxRows" max_rows in
  ret (url ++ urlencode keys).

Definition children (geoname_id hierarchy max_rows secure output_format : pyval) : Py string :=
  '(url, keys) <- _create_bare_end_point secure "children" output_format (One PyNone) ;;
  assert_ (truthy geoname_id) ;;
  let keys := _add_key_value keys "geonameId" geoname_id in
  let keys := _add_key_value keys "hierarchy" hierarchy in
  let keys := _add_key_value keys "maxRows" max_rows in
  ret (url ++ urlencode keys).

Definition neighbours (geoname_id country secure output_format : pyval) : Py string :=
  '(url, keys) <- _create_bare_end_point secure "neighbours" output_format (One PyNone) ;;
  assert_ (any [geoname_id; country] && negb (all [geoname_id; country])) ;;
  let keys := _add_key_value keys "geonameId" geoname_id in
  let keys := _add_key_value keys "country" country in
  ret (url ++ urlencode keys).

Definition hierarchy (geoname_id secure output_format : pyval) : Py string :=
  '(url, keys) <- _create_bare_end_point secure "hierarchy" output_format (One PyNone) ;;
  assert_ (truthy geoname_id) ;;
  let keys := _add_key_value keys "geonameId" geoname_id in
  ret (url ++ urlencode keys).

Definition siblings (geoname_id secure output_format : pyval) : Py string :=
  '(url, keys) <- _create_bare_end_point secure "siblings" output_format (One PyNone) ;;
  assert_ (truthy geoname_id) ;;
  let keys := _add_key_value keys "geonameId" geoname_id in
  ret (url ++ urlencode keys).

Definition postal_code_to_place_name
    (postal_code country charset max_rows secure output_format : pyval) : Py string :=
  '(url, keys) <- _create_bare_end_point secure "postalCodeLookup" output_format (One PyNone) ;;
  assert_ (truthy postal_code) ;;
  let keys := _add_key_value keys "postalcode" postal_code in
  let keys := _add_key_value keys "country" country in
  let keys := _add_key_value keys "charset" charset in
  let keys := _add_key_value keys "maxRows" max_rows in
  ret (url ++ urlencode keys).

Definition wikipedia_find_nearby
    (latitude longitude postal_code radius language max_rows country secure
     output_format : pyval) : Py string :=
  '(url, keys) <- _create_bare_end_point secure "findNearbyWikipedia" output_format (One PyNone) ;;
  (if is_none postal_code
   then assert_ (negb (is_none latitude) && negb (is_none longitude))
   else assert_ (is_none latitude || is_none longitude)) ;;
  let keys := _add_key_value keys "lat" latitude in
  let keys := _add_key_value keys "lng" longitude in
  let keys := _add_key_value keys "postalcode" postal_code in
  let keys := _add_key_value keys "radius" radius in
  let keys := _add_key_value keys "lang" language in
  let keys := _add_key_value keys "maxRows" max_rows in
  let keys := _add_key_value keys "country" country in
  ret (url ++ urlencode keys).

Definition wikipedia_fulltext_search
    (q title language max_rows secure output_format : pyval) : Py string :=
  '(url, keys) <- _create_bare_end_point secure "wikipediaSearch" output_format (One PyNone) ;;
  assert_ (truthy q) ;;
  let keys := _add_key_value keys "q" q in
  let keys := _add_key_value keys "title" title in
  let keys := _add_key_value keys "lang" language in
  let keys := _add_key_value keys "maxRows" max_rows in
  ret (url ++ urlencode keys).

Definition wikipedia_bounding_box
    (north east south west language max_rows secure output_format : pyval) : Py string :=
  '(url, keys) <- _create_bare_end_point secure "wikipediaBoundingBox" output_format (One PyNone) ;;
  assert_ (all [north; east; south; west]) ;;
  let keys := _add_key_value keys "north" north in
  let keys := _add_key_value keys "east" east in
  let keys := _add_key_value keys "south" south in
  let keys := _add_key_value keys "west" west in
  let keys := _add_key_value keys "lang" language in
  let keys := _add_key_value keys "maxRows" max_rows in
  ret (url ++ urlencode keys).

Definition earthquakes_bounding_box
    (north east south west up_to_date min_magnitude max_rows secure
     output_format : pyval) : Py string :=
  '(url, keys) <- _create_bare_end_point secure "earthquakes" output_format (One PyNone) ;;
  assert_ (all [north; east; south; west]) ;;
  let keys := _add_key_value keys "north" north in
  let keys := _add_key_value keys "east" east in
  let keys := _add_key_value keys "south" south in
  let keys := _add_key_value keys "west" west in
  let keys := _add_key_value keys "minMagnitude" min_magnitude in
  let keys := _add_key_value keys "maxRows" max_rows in
  let keys := _add_date keys up_to_date in
  ret (url ++ urlencode keys).

Definition weather_station_bounding_box
    (north east south west max_rows secure output_format : pyval) : Py string :=
  '(url, keys) <- _create_bare_end_point secure "weather" output_format (One PyNone) ;;
  assert_ (all [north; east; south; west]) ;;
  let keys := _add_key_value keys "north" north in
  let keys := _add_key_value keys "east" east in
  let keys := _add_key_value keys "south" south in
  let keys := _add_key_value keys "west" west in
  let keys := _add_key_value keys "maxRows" max_rows in
  ret (url ++ urlencode keys).

Definition weather_station_icao (icao secure output_format : pyval) : Py string :=
  '(url, keys) <- _create_bare_end_point secure "weatherIcao" output_format (One PyNone) ;;
  assert_ (truthy icao) ;;
  let keys := _add_key_value keys "ICAO" icao in
  ret (url ++ urlencode keys).

Definition weather_station_find_nearby
    (latitude longitude radius secure output_format : pyval) : Py string :=
  '(url, keys) <- _create_bare_end_point secure "findNearByWeather" output_format (One PyNone) ;;
  assert_ (truthy latitude || truthy longitude) ;;
  let keys := _add_key_value keys "lat" latitude in
  let keys := _add_key_value keys "lng" longitude in
  let keys := _add_key_value keys "radius" radius in
  ret (url ++ urlencode keys).

Definition country_info (country : pyarg) (language secure output_format : pyval) : Py string :=
  '(url, keys) <- _create_bare_end_point secure "countryInfo" output_format (One (PyStr "CSV")) ;;
  keys <- lift (add_each keys "country" country) ;;
  let keys := _add_key_value keys "lang" language in
  ret (url ++ urlencode keys).

Definition ocean (latitude longitude radius secure output_format : pyval) : Py string :=
  '(url, keys) <- _create_bare_end_point secure "ocean" output_format (One PyNone) ;;
  assert_ (truthy latitude || truthy longitude) ;;
  let keys := _add_key_value keys "lat" latitude in
  let keys := _add_key_value keys "lng" longitude in
  let keys := _add_key_value keys "radius" radius in
  ret (url ++ urlencode keys).

Definition timezone
    (latitude longitude radius language sunrise_sunset_date secure
     output_format : pyval) : Py string :=
  '(url, keys) <- _create_bare_end_point secure "timezone" output_format (One PyNone) ;;
  assert_ (truthy latitude || truthy longitude) ;;
  let keys := _add_key_value keys "lat" latitude in
  let keys := _add_key_value keys "lng" longitude in
  let keys := _add_key_value keys "radius" radius in
  let keys := _add_key_value keys "lang" language in
  let keys := _add_date keys sunrise_sunset_date in
  ret (url ++ urlencode keys).

Definition api_key : APIUrl :=
  {| username := "API_KEY"; _base_url := "https://secure.geonames.org/";
     default_output_format := "JSON" |}.


(** ** Calls *)

(** One constructor per endpoint method, with the arguments in the order of
    the method's signature. *)
Inductive call : Type :=
| Search (a : SearchArgs.t)
| CitiesAndPlaceNamesBoundingBox
    (north east south west language max_rows secure output_format : pyval)
| Children (geoname_id hierarchy max_rows secure output_format : pyval)
| Neighbours (geoname_id country secure output_format : pyval)
| Hierarchy (geoname_id secure output_format : pyval)
| Siblings (geoname_id secure output_format : pyval)
| PostalCodeToPlaceName (postal_code country charset max_rows secure output_format : pyval)
| WikipediaFindNearby
    (latitude longitude postal_code radius language max_rows country secure
     output_format : pyval)
| WikipediaFulltextSearch (q title language max_rows secure output_format : pyval)
| WikipediaBoundingBox
    (north east south west language max_rows secure output_format : pyval)
| EarthquakesBoundingBox
    (north east south west up_to_date min_magnitude max_rows secure output_format : pyval)
| WeatherStationBoundingBox (north east south west max_rows secure output_format : pyval)
| WeatherStationIcao (icao secure output_format : pyval)
| WeatherStationFindNearby (latitude longitude radius secure output_format : pyval)
| CountryInfo (country : pyarg) (language secure output_format : pyval)
| Ocean (latitude longitude radius secure output_format : pyval)
| Timezone
    (latitude longitude radius language sunrise_sunset_date secure output_format : pyval).

Definition run (k : call) : Py string :=
  match k with
  | Search a => search a
  | CitiesAndPlaceNamesBoundingBox n e s w l m sec f =>
      cities_and_place_names_bounding_box n e s w l m sec f
  | Children g h m sec f => children g h m sec f
  | Neighbours g c sec f => neighbours g c sec f
  | Hierarchy g sec f => hierarchy g sec f
  | Siblings g sec f => siblings g sec f
  | PostalCodeToPlaceName p c ch m sec f => postal_code_to_place_name p c ch m sec f
  | WikipediaFindNearby la lo p r l m c sec f => wikipedia_find_nearby la lo p r l m c sec f
  | WikipediaFulltextSearch q t l m sec f => wikipedia_fulltext_search q t l m sec f
  | WikipediaBoundingBox n e s w l m sec f => wikipedia_bounding_box n e s w l m sec f
  | EarthquakesBoundingBox n e s w d mm m sec f => earthquakes_bounding_box n e s w d mm m sec f
  | WeatherStationBoundingBox n e s w m sec f => weather_station_bounding_box n e s w m sec f
  | WeatherStationIcao i sec f => weather_station_icao i sec f
  | WeatherStationFindNearby la lo r sec f => weather_station_find_nearby la lo r sec f
  | CountryInfo c l sec f => country_info c l sec f
  | Ocean la lo r sec f => ocean la lo r sec f
  | Timezone la lo r l d sec f => timezone la lo r l d sec f
  end.

(** The object after a sequence of calls, whatever their outcomes. *)
Fixpoint after (history : list call) (self : APIUrl) : APIUrl :=
  match history with
  | [] => self
  | k :: rest => after rest (self_after (run k) self)
  end.

(** The [secure] and [output_format] arguments of a call. *)
Definition secure_of (k : call) : pyval :=
  match k with
  | Search a => SearchArgs.secure a
  | CitiesAndPlaceNamesBoundingBox _ _ _ _ _ _ sec _ | Children _ _ _ sec _
  | Neighbours _ _ sec _ | Hierarchy _ sec _ | Siblings _ sec _
  | PostalCodeToPlaceName _ _ _ _ sec _ | WikipediaFindNearby _ _ _ _ _ _ _ sec _
  | WikipediaFulltextSearch _ _ _ _ sec _ | WikipediaBoundingBox _ _ _ _ _ _ sec _
  | EarthquakesBoundingBox _ _ _ _ _ _ _ sec _ | WeatherStationBoundingBox _ _ _ _ _ sec _
  | WeatherStationIcao _ sec _ | WeatherStationFindNearby _ _ _ sec _
  | CountryInfo _ _ sec _ | Ocean _ _ _ sec _ | Timezone _ _ _ _ _ sec _ => sec
  end.

Definition output_format_of (k : call) : pyval :=
  match k with
  | Search a => SearchArgs.output_format a
  | CitiesAndPlaceNamesBoundingBox _ _ _ _ _ _ _ f | Children _ _ _ _ f
  | Neighbours _ _ _ f | Hierarchy _ _ f | Siblings _ _ f
  | PostalCodeToPlaceName _ _ _ _ _ f | WikipediaFindNearby _ _ _ _ _ _ _ _ f
  | WikipediaFulltextSearch _ _ _ _ _ f | WikipediaBoundingBox _ _ _ _ _ _ _ f
  | EarthquakesBoundingBox _ _ _ _ _ _ _ _ f | WeatherStationBoundingBox _ _ _ _ _ _ f
  | WeatherStationIcao _ _ f | WeatherStationFindNearby _ _ _ _ f
  | CountryInfo _ _ _ f | Ocean _ _ _ _ f | Timezone _ _ _ _ _ _ f => f
  end.

(** The path segment of the endpoint. *)
Definition end_point_of (k : call) : string :=
  match k with
  | Search _ => "search"
  | CitiesAndPlaceNamesBoundingBox _ _ _ _ _ _ _ _ => "cities"
  | Children _ _ _ _ _ => "children"
  | Neighbours _ _ _ _ => "neighbours"
  | Hierarchy _ _ _ => "hierarchy"
  | Siblings _ _ _ => "siblings"
  | PostalCodeToPlaceName _ _ _ _ _ _ => "postalCodeLookup"
  | WikipediaFindNearby _ _ _ _ _ _ _ _ _ => "findNearbyWikipedia"
  | WikipediaFulltextSearch _ _ _ _ _ _ => "wikipediaSearch"
  | WikipediaBoundingBox _ _ _ _ _ _ _ _ => "wikipediaBoundingBox"
  | EarthquakesBoundingBox _ _ _ _ _ _ _ _ _ => "earthquakes"
  | WeatherStationBoundingBox _ _ _ _ _ _ _ => "weather"
  | WeatherStationIcao _ _ _ => "weatherIcao"
  | WeatherStationFindNearby _ _ _ _ _ => "findNearByWeather"
  | CountryInfo _ _ _ _ => "countryInfo"
  | Ocean _ _ _ _ _ => "ocean"
  | Timezone _ _ _ _ _ _ _ => "timezone"
  end.

(** The methods that call [_create_bare_end_point] and leave its
    [additional_output_formats] at [None]: all but [search] and
    [country_info]. *)
Definition bare_without_additional (k : call) : bool :=
  match k with
  | Search _ | CountryInfo _ _ _ _ => false
  | _ => true
  end.

(** ** The vocabulary of the specification *)

(** An object built by the constructor. *)
Definition constructed (self : APIUrl) : Prop :=
  exists u s f, __init__ u s f = Ok self.

(** The pairs of the present (non-None) arguments, in order. *)
Definition present (l : list (string * pyval)) : keys_t :=
  map (fun kv => (fst kv, str (snd kv)))
      (filter (fun kv => negb (is_none (snd kv))) l).

(** A "str or list" argument as the values it stands for: a list stands for
    its elements, anything else for itself. *)
Definition each (key : string) (x : pyarg) : list (string * pyval) :=
  match x with
  | One v => [(key, v)]
  | Many l => map (fun v => (key, v)) l
  end.

(** A date argument as the value that is added: a [datetime.date] as the text
    [strftime] gives for it, anything else as it is. *)
Definition date_text (v : pyval) : pyval :=
  match v with
  | PyDate y m d => PyStr (strftime_ymd y m d)
  | _ => v
  end.

(** The query parameters of a call, in the order in which the method adds
    them: every key with the argument it takes its value from. *)
Definition parameters (self : APIUrl) (k : call) : list (string * pyval) :=
  match k with
  | Search a =>
      ([("q", SearchArgs.q a); ("name", SearchArgs.name a);
        ("name_equals", SearchArgs.name_equals a);
        ("name_startsWith", SearchArgs.name_starts_with a);
        ("maxRows", SearchArgs.max_rows a); ("startRow", SearchArgs.start_row a)]
       ++ each "country" (SearchArgs.country a)
       ++ [("countryBias", SearchArgs.country_bias a);
           ("continentCode", SearchArgs.continent_code a);
           ("adminCode1", SearchArgs.admin_code1 a);
           ("adminCode2", SearchArgs.admin_code2 a);
           ("adminCode3", SearchArgs.admin_code3 a)]
       ++ each "featureClass" (SearchArgs.feature_class a)
       ++ each "featureCode" (SearchArgs.feature_code a)
       ++ [("cities", SearchArgs.cities a); ("lang", SearchArgs.language a);
           ("style", SearchArgs.style a);
           ("isNameRequired", SearchArgs.is_name_required a);
           ("tag", SearchArgs.tag a); ("operator", SearchArgs.operator a);
           ("charset", SearchArgs.charset a); ("fuzzy", SearchArgs.fuzzy a)]
       ++ (if none_not_in [SearchArgs.north a; SearchArgs.east a;
                           SearchArgs.south a; SearchArgs.west a]
           then [("north", SearchArgs.north a); ("east", SearchArgs.east a);
                 ("south", SearchArgs.south a); ("west", SearchArgs.west a)]
           else [])
       ++ [("searchlang", SearchArgs.search_language a);
           ("orderby", SearchArgs.order_by a);
           ("inclBbox", SearchArgs.include_bbox a);
           ("type", if is_none (SearchArgs.output_format a)
                    then PyStr (default_output_format self)
                    else SearchArgs.output_format a)])%list
  | CitiesAndPlaceNamesBoundingBox n e s w l m _ _ =>
      [("north", n); ("east", e); ("south", s); ("west", w); ("lang", l); ("maxRows", m)]
  | Children g h m _ _ => [("geonameId", g); ("hierarchy", h); ("maxRows", m)]
  | Neighbours g c _ _ => [("geonameId", g); ("country", c)]
  | Hierarchy g _ _ => [("geonameId", g)]
  | Siblings g _ _ => [("geonameId", g)]
  | PostalCodeToPlaceName p c ch m _ _ =>
      [("postalcode", p); ("country", c); ("charset", ch); ("maxRows", m)]
  | WikipediaFindNearby la lo p r l m c _ _ =>
      [("lat", la); ("lng", lo); ("postalcode", p); ("radius", r); ("lang", l);
       ("maxRows", m); ("country", c)]
  | WikipediaFulltextSearch q t l m _ _ =>
      [("q", q); ("title", t); ("lang", l); ("maxRows", m)]
  | WikipediaBoundingBox n e s w l m _ _ =>
      [("north", n); ("east", e); ("south", s); ("west", w); ("lang", l); ("maxRows", m)]
  | EarthquakesBoundingBox n e s w d mm m _ _ =>
      [("north", n); ("east", e); ("south", s); ("west", w); ("minMagnitude", mm);
       ("maxRows", m); ("date", date_text d)]
  | WeatherStationBoundingBox n e s w m _ _ =>
      [("north", n); ("east", e); ("south", s); ("west", w); ("maxRows", m)]
  | WeatherStationIcao i _ _ => [("ICAO", i)]
  | WeatherStationFindNearby la lo r _ _ => [("lat", la); ("lng", lo); ("radius", r)]
  | CountryInfo c l _ _ => (each "country" c ++ [("lang", l)])%list
  | Ocean la lo r _ _ => [("lat", la); ("lng", lo); ("radius", r)]
  | Timezone la lo r l d _ _ =>
      [("lat", la); ("lng", lo); ("radius", r); ("lang", l); ("date", date_text d)]
  end.

(** The text [_create_bare_end_point] puts between the endpoint and the
    question mark when it returns. *)
Definition suffix_of (self : APIUrl) (output_format : pyval) : string :=
  if truthy output_format then
    match output_format with
    | PyStr s =>
        if String.eqb (upper s) "JSON" then "JSON"
        else if String.eqb (upper s) "CSV" then "CSV" else ""
    | _ => ""
    end
  else if String.eqb (default_output_format self) "JSON" then "JSON" else "".

Definition format_suffix (self : APIUrl) (k : call) : string :=
  match k with
  | Search _ => ""
  | _ => suffix_of self (output_format_of k)
  end.

(** The URL up to and including the question mark. *)
Definition bare_url (self : APIUrl) (secure : pyval) (end_point suffix : string) : string :=
  (if truthy secure then "https://secure.geonames.org/" else _base_url self)
  ++ end_point ++ suffix ++ "?".

(** The protocol and host of the URL of a call. *)
Definition base_of (self : APIUrl) (k : call) : string :=
  if truthy (secure_of k) then "https://secure.geonames.org/" else _base_url self.

(** *** Reading a URL back *)

Fixpoint contains (c : ascii) (s : string) : bool :=
  match s with
  | EmptyString => false
  | String a rest => Ascii.eqb a c || contains c rest
  end.

(** [s.partition(c)] without the separator: the text before the first [c]
    and the text after it. *)
Fixpoint partition (c : ascii) (s : string) : string * string :=
  match s with
  | EmptyString => ("", "")
  | String a rest =>
      if Ascii.eqb a c then ("", rest)
      else let (x, y) := partition c rest in (String a x, y)
  end.

(** [s.split(c)] *)
Fixpoint split (c : ascii) (s : string) : list string :=
  match s with
  | EmptyString => [""]
  | String a rest =>
      if Ascii.eqb a c then "" :: split c rest
      else match split c rest with
           | x :: xs => String a x :: xs
           | [] => [String a ""]
           end
  end.

Definition path_of (url : string) : string := fst (partition "?" url).
Definition query_of (url : string) : string := snd (partition "?" url).

(** The key-value pairs of the query string of a URL, still percent-encoded,
    in the order in which they stand. *)
Definition query_pairs (url : string) : list (string * string) :=
  map (partition "=") (split "&" (query_of url)).

Definition starts_with (p s : string) : bool := String.prefix p s.

Fixpoint ends_with (suffix s : string) : bool :=
  String.eqb suffix s ||
  match s with
  | EmptyString => false
  | String _ rest => ends_with suffix rest
  end.

Definition count_key (key : string) (pairs : list (string * string)) : nat :=
  List.length (filter (fun kv => String.eqb (fst kv) key) pairs).

(** The characters that structure the query of a URL. *)
Definition structural (c : ascii) : bool :=
  Ascii.eqb c "?" || Ascii.eqb c "&" || Ascii.eqb c "=".

(** The pair one argument contributes. *)
Definition present1 (key : string) (value : pyval) : keys_t :=
  if is_none value then [] else [(key, str value)].

(** A value [for c in x] can run over, once a [str] is wrapped in a list. *)
Definition iterable (x : pyarg) : bool :=
  match x with
  | One PyNone | One (PyStr _) | Many _ => true
  | One _ => false
  end.

(** The output formats [_create_bare_end_point] goes through with: a falsy
    value (the default is used), or a [str] that does not read "CSV" in upper
    case unless the endpoint adds that format. *)
Definition format_accepted (csv : bool) (output_format : pyval) : bool :=
  negb (truthy output_format) ||
  match output_format with
  | PyStr s => csv || negb (String.eqb (upper s) "CSV")
  | _ => false
  end.

(** *** The behaviour of a call in closed form

    [behaviour] says in one expression what a call does; [run_behaviour]
    below proves that every method computes exactly that. *)

(** The condition the method asserts. *)
Definition precondition (k : call) : bool :=
  match k with
  | Search a => any [SearchArgs.q a; SearchArgs.name a; SearchArgs.name_equals a]
  | CitiesAndPlaceNamesBoundingBox n e s w _ _ _ _ => none_not_in [n; e; s; w]
  | Children g _ _ _ _ | Hierarchy g _ _ | Siblings g _ _ => truthy g
  | Neighbours g c _ _ => any [g; c] && negb (all [g; c])
  | PostalCodeToPlaceName p _ _ _ _ _ => truthy p
  | WikipediaFindNearby la lo p _ _ _ _ _ _ =>
      if is_none p then negb (is_none la) && negb (is_none lo)
      else is_none la || is_none lo
  | WikipediaFulltextSearch q _ _ _ _ _ => truthy q
  | WikipediaBoundingBox n e s w _ _ _ _ | EarthquakesBoundingBox n e s w _ _ _ _ _
  | WeatherStationBoundingBox n e s w _ _ _ => all [n; e; s; w]
  | WeatherStationIcao i _ _ => truthy i
  | WeatherStationFindNearby la lo _ _ _ | Ocean la lo _ _ _
  | Timezone la lo _ _ _ _ _ => truthy la || truthy lo
  | CountryInfo _ _ _ _ => true
  end.

(** Whether the "str or list" arguments of the call can be iterated. *)
Definition iterables (k : call) : bool :=
  match k with
  | Search a =>
      iterable (SearchArgs.country a) && iterable (SearchArgs.feature_class a)
      && iterable (SearchArgs.feature_code a)
  | CountryInfo c _ _ _ => iterable c
  | _ => true
  end.

(** The exception the output format makes [_create_bare_end_point] raise. *)
Definition format_error (k : call) : option exn :=
  match k with
  | Search _ => None
  | _ =>
      if truthy (output_format_of k) then
        match output_format_of k with
        | PyStr s =>
            if String.eqb (upper s) "CSV" && bare_without_additional k
            then Some TypeError else None
        | _ => Some AttributeError
        end
      else None
  end.

(** The URL of a call that returns. *)
Definition url_of (self : APIUrl) (k : call) : string :=
  base_of self k ++ end_point_of k ++ format_suffix self k ++ "?"
  ++ urlencode (("username", username self) :: present (parameters self k)).

(** The outcome of a call: the checks in the order in which every method
    reaches them, then the URL. *)
Definition behaviour (self : APIUrl) (k : call) : result string :=
  match format_error k with
  | Some e => Raise e
  | None =>
      if precondition k then
        if iterables k then Ok (url_of self k) else Raise TypeError
      else Raise AssertionError
  end.

(** The coordinates of the methods that assert [latitude or longitude]. *)
Definition coordinates (k : call) : option (pyval * pyval) :=
  match k with
  | Timezone la lo _ _ _ _ _ | Ocean la lo _ _ _ | WeatherStationFindNearby la lo _ _ _ =>
      Some (la, lo)
  | _ => None
  end.

(** The edges of the methods that assert [all((north, east, south, west))]. *)
Definition asserted_edges (k : call) : option (list pyval) :=
  match k with
  | WikipediaBoundingBox n e s w _ _ _ _ | EarthquakesBoundingBox n e s w _ _ _ _ _
  | WeatherStationBoundingBox n e s w _ _ _ => Some [n; e; s; w]
  | _ => None
  end.

(** *** Decoding, and the shape of the arguments *)

(** The value of a hexadecimal digit, in either case. *)
Definition hex_value (c : ascii) : option nat :=
  let n := nat_of_ascii c in
  if ((48 <=? n) && (n <=? 57))%nat then Some (n - 48)
  else if ((65 <=? n) && (n <=? 70))%nat then Some (n - 55)
  else if ((97 <=? n) && (n <=? 102))%nat then Some (n - 87)
  else None.

(** [urllib.parse.unquote_plus] on the bytes: a [+] is a space, [%XX] is the
    byte XX, and a [%] that two hexadecimal digits do not follow is kept. *)
Fixpoint unquote_plus (s : string) : string :=
  match s with
  | EmptyString => EmptyString
  | String c rest =>
      if Ascii.eqb c "+" then String " " (unquote_plus rest)
      else if Ascii.eqb c "%" then
        match rest with
        | String h (String l rest') =>
            match hex_value h, hex_value l with
            | Some x, Some y => String (ascii_of_nat (16 * x + y)) (unquote_plus rest')
            | _, _ => String c (unquote_plus rest)
            end
        | _ => String c (unquote_plus rest)
        end
      else String c (unquote_plus rest)
  end.

Definition unquote_pair (kv : string * string) : string * string :=
  (unquote_plus (fst kv), unquote_plus (snd kv)).

(** The bytes a query string is made of: the unreserved ones and [+%&=]. *)
Definition query_byte (c : ascii) : bool :=
  always_safe c || Ascii.eqb c "+" || Ascii.eqb c "%" || Ascii.eqb c "&"
  || Ascii.eqb c "=".

Fixpoint forall_bytes (p : ascii -> bool) (s : string) : bool :=
  match s with
  | EmptyString => true
  | String c rest => p c && forall_bytes p rest
  end.

(** The argument the method asserts by [assert x], with its key. *)
Definition required_argument (k : call) : option (string * pyval) :=
  match k with
  | Children g _ _ _ _ | Hierarchy g _ _ | Siblings g _ _ => Some ("geonameId", g)
  | PostalCodeToPlaceName p _ _ _ _ _ => Some ("postalcode", p)
  | WikipediaFulltextSearch q _ _ _ _ _ => Some ("q", q)
  | WeatherStationIcao i _ _ => Some ("ICAO", i)
  | _ => None
  end.

(** The edges of the four methods that take a bounding box as required
    arguments. *)
Definition box_edges (k : call) : option (pyval * pyval * pyval * pyval) :=
  match k with
  | CitiesAndPlaceNamesBoundingBox n e s w _ _ _ _ | WikipediaBoundingBox n e s w _ _ _ _
  | EarthquakesBoundingBox n e s w _ _ _ _ _ | WeatherStationBoundingBox n e s w _ _ _ =>
      Some (n, e, s, w)
  | _ => None
  end.

Definition is_search (k : call) : bool :=
  match k with Search _ => true | _ => false end.

(** The date argument of the two methods that call [_add_date]. *)
Definition date_argument (k : call) : option pyval :=
  match k with
  | Timezone _ _ _ _ d _ _ | EarthquakesBoundingBox _ _ _ _ d _ _ _ _ => Some d
  | _ => None
  end.

(** * Properties *)

(** ** The calls of the [__main__] block *)

Example str_int : str (PyInt (-40545)) = "-40545".
Proof. reflexivity. Qed.

Example str_date : str (PyDate 2017 7 7) = "2017-07-07".
Proof. reflexivity. Qed.

(** Below the year 1000 [str] pads the year and [strftime] does not. *)
Example str_date_999 : str (PyDate 999 1 2) = "0999-01-02".
Proof. reflexivity. Qed.

Example strftime_999 : strftime_ymd 999 1 2 = "999-01-02".
Proof. reflexivity. Qed.

Example strftime_12 : strftime_ymd 12 3 4 = "12-03-04".
Proof. reflexivity. Qed.

Example strftime_2017 : strftime_ymd 2017 7 7 = "2017-07-07".
Proof. reflexivity. Qed.

Example upper_mixed : upper "jSon" = "JSON".
Proof. reflexivity. Qed.

Example urlencode_utf8 :
  urlencode [("username", "API_KEY"); ("q", String "068" (String "195" (String "188" "sseldorf")));
             ("q", "costa del sol")]
  = "username=API_KEY&q=D%C3%BCsseldorf&q=costa+del+sol".
Proof. reflexivity. Qed.

Example init_api_key :
  __init__ (PyStr "API_KEY") (PyBool true) (PyStr "JSON") = Ok api_key.
Proof. reflexivity. Qed.

Example main_search :
  outcome (search (SearchArgs.with_q (PyStr "costa del sol") SearchArgs.defaults)) api_key
  = Ok "https://secure.geonames.org/search?username=API_KEY&q=costa+del+sol&type=JSON".
Proof. reflexivity. Qed.

Example main_search_lists :
  outcome (search (SearchArgs.with_q (PyStr "Indonesia")
            (SearchArgs.with_country (Many [PyStr "DE"; PyStr "NL"])
              (SearchArgs.with_feature_code (One (PyStr "AIRP")) SearchArgs.defaults))))
          api_key
  = Ok "https://secure.geonames.org/search?username=API_KEY&q=Indonesia&country=DE&country=NL&featureCode=AIRP&type=JSON".
Proof. reflexivity. Qed.

Example main_timezone :
  outcome (timezone (PyFloat "51.2277") (PyFloat "6.7735") PyNone PyNone (PyDate 2017 7 7)
             PyNone PyNone) api_key
  = Ok "https://secure.geonames.org/timezoneJSON?username=API_KEY&lat=51.2277&lng=6.7735&date=2017-07-07".
Proof. reflexivity. Qed.

(** A date before the year 1000 goes out as [strftime] writes it. *)
Example timezone_year_999 :
  outcome (timezone (PyInt 1) (PyInt 2) PyNone PyNone (PyDate 999 1 2) PyNone PyNone) api_key
  = Ok "https://secure.geonames.org/timezoneJSON?username=API_KEY&lat=1&lng=2&date=999-01-02".
Proof. reflexivity. Qed.

Example earthquakes_year_12 :
  outcome (earthquakes_bounding_box (PyInt 4) (PyInt 3) (PyInt 2) (PyInt 1) (PyDate 12 3 4)
             PyNone PyNone PyNone PyNone) api_key
  = Ok "https://secure.geonames.org/earthquakesJSON?username=API_KEY&north=4&east=3&south=2&west=1&date=12-03-04".
Proof. reflexivity. Qed.

Example main_wikipedia_search :
  outcome (wikipedia_fulltext_search (PyStr "Berlin") PyNone (PyStr "NL") PyNone PyNone
             (PyStr "XML")) api_key
  = Ok "https://secure.geonames.org/wikipediaSearch?username=API_KEY&q=Berlin&lang=NL".
Proof. reflexivity. Qed.

Example main_wikipedia_nearby :
  outcome (wikipedia_find_nearby PyNone PyNone (PyInt 40545) PyNone PyNone PyNone (PyStr "DE")
             PyNone PyNone) api_key
  = Ok "https://secure.geonames.org/findNearbyWikipediaJSON?username=API_KEY&postalcode=40545&country=DE".
Proof. reflexivity. Qed.

Example main_country_info :
  outcome (country_info (Many [PyStr "NL"; PyStr "DE"]) PyNone PyNone PyNone) api_key
  = Ok "https://secure.geonames.org/countryInfoJSON?username=API_KEY&country=NL&country=DE".
Proof. reflexivity. Qed.

Example main_neighbours :
  outcome (neighbours (PyInt 2782113) PyNone PyNone PyNone) api_key
  = Ok "https://secure.geonames.org/neighboursJSON?username=API_KEY&geonameId=2782113".
Proof. reflexivity. Qed.

(** ** Strings *)

Lemma contains_app (c : ascii) (s t : string) :
  contains c (s ++ t) = contains c s || contains c t.
Proof.
  induction s as [|a s IH]; simpl; [reflexivity|].
  rewrite IH. now rewrite orb_assoc.
Qed.

Lemma partition_app (c : ascii) (p q : string) :
  contains c p = false -> partition c (p ++ String c q) = (p, q).
Proof.
  induction p as [|a p IH]; simpl; intros H.
  - now rewrite Ascii.eqb_refl.
  - apply orb_false_iff in H. destruct H as [Ha Hp].
    rewrite Ha, (IH Hp). reflexivity.
Qed.

Lemma partition_none (c : ascii) (p : string) :
  contains c p = false -> partition c p = (p, "").
Proof.
  induction p as [|a p IH]; simpl; intros H; [reflexivity|].
  apply orb_false_iff in H. destruct H as [Ha Hp].
  rewrite Ha, (IH Hp). reflexivity.
Qed.

Lemma split_none (c : ascii) (p : string) :
  contains c p = false -> split c p = [p].
Proof.
  induction p as [|a p IH]; simpl; intros H; [reflexivity|].
  apply orb_false_iff in H. destruct H as [Ha Hp].
  rewrite Ha, (IH Hp). reflexivity.
Qed.

Lemma split_app (c : ascii) (p q : string) :
  contains c p = false -> split c (p ++ String c q) = p :: split c q.
Proof.
  induction p as [|a p IH]; simpl; intros H.
  - now rewrite Ascii.eqb_refl.
  - apply orb_false_iff in H. destruct H as [Ha Hp].
    rewrite Ha, (IH Hp). reflexivity.
Qed.

Lemma split_join (c : ascii) (l : list string) :
  l <> [] ->
  Forall (fun s => contains c s = false) l ->
  split c (join (String c "") l) = l.
Proof.
  induction l as [|x l IH]; intros Hne Hall; [congruence|].
  inversion Hall as [|? ? Hx Hl]; subst.
  destruct l as [|y l].
  - simpl. now apply split_none.
  - change (join (String c "") (x :: y :: l))
      with (x ++ String c (join (String c "") (y :: l))).
    rewrite (split_app _ _ _ Hx), IH; [reflexivity|discriminate|assumption].
Qed.

Lemma quote_byte_clean (c a : ascii) :
  structural c = true -> contains c (quote_byte a) = false.
Proof.
  unfold structural. intros H.
  assert (Hc : c = "?"%char \/ c = "&"%char \/ c = "="%char).
  { destruct (Ascii.eqb_spec c "?"); [now left|].
    destruct (Ascii.eqb_spec c "&"); [now right; left|].
    destruct (Ascii.eqb_spec c "="); [now right; right|discriminate]. }
  destruct Hc as [->|[->| ->]];
    destruct a as [[] [] [] [] [] [] [] []]; reflexivity.
Qed.

Lemma quote_plus_clean (c : ascii) (s : string) :
  structural c = true -> contains c (quote_plus s) = false.
Proof.
  intros H. induction s as [|a s IH]; simpl; [reflexivity|].
  now rewrite contains_app, IH, (quote_byte_clean _ _ H).
Qed.

Lemma quote_plus_safe (s : string) :
  (forall c, contains c s = true -> always_safe c = true) -> quote_plus s = s.
Proof.
  induction s as [|a s IH]; simpl; intros H; [reflexivity|].
  unfold quote_byte. rewrite (H a) by now rewrite Ascii.eqb_refl.
  simpl. f_equal. apply IH. intros c Hc. apply H. now rewrite Hc, orb_true_r.
Qed.

Lemma query_of_url (head query : string) :
  contains "?" head = false ->
  query_of (head ++ "?" ++ query) = query /\ path_of (head ++ "?" ++ query) = head.
Proof.
  intros H. unfold query_of, path_of.
  change (head ++ "?" ++ query) with (head ++ String "?" query).
  now rewrite (partition_app _ _ _ H).
Qed.

Lemma query_pairs_urlencode (head : string) (keys : keys_t) :
  contains "?" head = false -> keys <> [] ->
  query_pairs (head ++ "?" ++ urlencode keys) = map quote_pair keys.
Proof.
  intros Hh Hk. unfold query_pairs.
  destruct (query_of_url head (urlencode keys) Hh) as [-> _].
  unfold urlencode.
  rewrite split_join.
  - rewrite map_map. apply map_ext. intros [k v]. simpl.
    change (quote_plus k ++ "=" ++ quote_plus v)
      with (quote_plus k ++ String "=" (quote_plus v)).
    now rewrite partition_app by now apply quote_plus_clean.
  - destruct keys; [congruence|discriminate].
  - apply Forall_forall. intros x Hx. apply in_map_iff in Hx.
    destruct Hx as [[k v] [<- _]]. simpl.
    change (quote_plus k ++ "=" ++ quote_plus v)
      with (quote_plus k ++ String "=" (quote_plus v)).
    rewrite contains_app. simpl.
    now rewrite !quote_plus_clean.
Qed.

Lemma append_assoc (s t u : string) : (s ++ t) ++ u = s ++ (t ++ u).
Proof. induction s as [|a s IH]; simpl; [reflexivity|now rewrite IH]. Qed.

Lemma append_nil_r (s : string) : s ++ "" = s.
Proof. induction s as [|a s IH]; simpl; [reflexivity|now rewrite IH]. Qed.

Lemma prefix_app (p s : string) : String.prefix p (p ++ s) = true.
Proof.
  induction p as [|a p IH]; simpl; [now destruct s|].
  destruct (ascii_dec a a); [assumption|congruence].
Qed.

(** ** The list of pairs *)

Lemma present_nil : present [] = [].
Proof. reflexivity. Qed.

Lemma present_cons (key : string) (v : pyval) (l : list (string * pyval)) :
  present ((key, v) :: l) = (present1 key v ++ present l)%list.
Proof. unfold present, present1. simpl. now destruct (is_none v). Qed.

Lemma present_app (l1 l2 : list (string * pyval)) :
  present (l1 ++ l2) = (present l1 ++ present l2)%list.
Proof. unfold present. now rewrite filter_app, map_app. Qed.

Lemma add_key_value_app (keys : keys_t) (key : string) (v : pyval) :
  _add_key_value keys key v = (keys ++ present1 key v)%list.
Proof.
  unfold _add_key_value, present1. destruct (is_none v); [|reflexivity].
  now rewrite app_nil_r.
Qed.

Lemma add_date_app (keys : keys_t) (d : pyval) :
  _add_date keys d = (keys ++ present1 "date" (date_text d))%list.
Proof. unfold _add_date. now rewrite add_key_value_app. Qed.

Lemma fold_add_key_value (key : string) (l : list pyval) (keys : keys_t) :
  fold_left (fun ks c => _add_key_value ks key c) l keys
  = (keys ++ present (map (fun v => (key, v)) l))%list.
Proof.
  revert keys. induction l as [|v l IH]; intros keys; simpl.
  - now rewrite present_nil, app_nil_r.
  - now rewrite IH, present_cons, add_key_value_app, app_assoc.
Qed.

Lemma add_each_ok (keys keys' : keys_t) (key : string) (x : pyarg) :
  add_each keys key x = Ok keys' ->
  keys' = (keys ++ present (each key x))%list.
Proof.
  destruct x as [v|l]; simpl.
  - destruct v; intros H; inversion H; subst; clear H.
    + now rewrite app_nil_r.
    + now rewrite add_key_value_app, present_cons, present_nil, app_nil_r.
  - intros H. inversion H. apply fold_add_key_value.
Qed.

Lemma add_each_iterable (keys : keys_t) (key : string) (x : pyarg) :
  is_ok (add_each keys key x) = iterable x.
Proof. destruct x as [[]|]; reflexivity. Qed.

Lemma add_each_raises (keys : keys_t) (key : string) (x : pyarg) (e : exn) :
  add_each keys key x = Raise e -> e = TypeError /\ iterable x = false.
Proof. destruct x as [[]|]; simpl; intros H; inversion H; auto. Qed.

(** ** [_create_bare_end_point] *)

Ltac bare_cases secure f :=
  unfold _create_bare_end_point, bind, get_self, lift, ret, bare_url, suffix_of,
    _create_base_url;
  destruct (truthy secure); destruct (truthy f) eqn:?;
  [ destruct f; simpl; try reflexivity | | destruct f; simpl; try reflexivity | ];
  repeat match goal with
  | |- context [String.eqb ?a ?b] =>
      let H := fresh "E" in
      destruct (String.eqb a b) eqn:H; [apply String.eqb_eq in H; try rewrite H|]; simpl
  end;
  try discriminate;
  rewrite ?append_assoc; reflexivity.

(** What the helper does when the endpoint adds no output format. *)
Lemma bare_end_point_plain (secure : pyval) (end_point : string) (f : pyval)
    (self : APIUrl) :
  _create_bare_end_point secure end_point f (One PyNone) self
  = (self,
     if truthy f then
       match f with
       | PyStr s =>
           if String.eqb (upper s) "CSV" then Raise TypeError
           else Ok (bare_url self secure end_point (suffix_of self f),
                    [("username", username self)])
       | _ => Raise AttributeError
       end
     else Ok (bare_url self secure end_point (suffix_of self f),
              [("username", username self)])).
Proof. bare_cases secure f. Qed.

(** What the helper does for [country_info], which adds "CSV". *)
Lemma bare_end_point_csv (secure : pyval) (end_point : string) (f : pyval)
    (self : APIUrl) :
  _create_bare_end_point secure end_point f (One (PyStr "CSV")) self
  = (self,
     if truthy f then
       match f with
       | PyStr s => Ok (bare_url self secure end_point (suffix_of self f),
                        [("username", username self)])
       | _ => Raise AttributeError
       end
     else Ok (bare_url self secure end_point (suffix_of self f),
              [("username", username self)])).
Proof. bare_cases secure f. Qed.

(** ** Every method in closed form *)

Ltac keys_normal :=
  rewrite ?add_date_app, ?add_key_value_app, ?present_app, ?present_cons, ?present_nil;
  rewrite ?app_nil_r, <- ?app_assoc; cbn [app]; rewrite ?app_nil_r;
  try reflexivity.

Lemma url_eq (self : APIUrl) (b ep sfx : string) (keys keys' : keys_t) :
  keys = keys' ->
  (self, Ok ((b ++ ep ++ sfx ++ "?") ++ urlencode keys))
  = (self, Ok (b ++ ep ++ sfx ++ "?" ++ urlencode keys')).
Proof. intros ->. now rewrite !append_assoc. Qed.

(** The methods that start with [_create_bare_end_point] and assert next. *)
Ltac plain_method f :=
  unfold bind; rewrite bare_end_point_plain;
  unfold behaviour, format_error, url_of, bare_url, base_of, format_suffix, assert_,
    ret, raise;
  cbn [output_format_of secure_of end_point_of precondition iterables
       bare_without_additional parameters];
  destruct (truthy f);
    [ destruct f; try reflexivity; rewrite andb_true_r;
      match goal with
      | |- context [String.eqb ?a "CSV"] => destruct (String.eqb a "CSV"); try reflexivity
      end
    | ];
    match goal with
    | |- context [if ?c then (fun _ => _) else _] => destruct c; [|reflexivity]
    end;
    apply url_eq; keys_normal.

Lemma cities_behaviour (n e s w l m sec f : pyval) (self : APIUrl) :
  cities_and_place_names_bounding_box n e s w l m sec f self
  = (self, behaviour self (CitiesAndPlaceNamesBoundingBox n e s w l m sec f)).
Proof. unfold cities_and_place_names_bounding_box. plain_method f. Qed.

Lemma children_behaviour (g h m sec f : pyval) (self : APIUrl) :
  children g h m sec f self = (self, behaviour self (Children g h m sec f)).
Proof. unfold children. plain_method f. Qed.

Lemma neighbours_behaviour (g c sec f : pyval) (self : APIUrl) :
  neighbours g c sec f self = (self, behaviour self (Neighbours g c sec f)).
Proof. unfold neighbours. plain_method f. Qed.

Lemma hierarchy_behaviour (g sec f : pyval) (self : APIUrl) :
  hierarchy g sec f self = (self, behaviour self (Hierarchy g sec f)).
Proof. unfold hierarchy. plain_method f. Qed.

Lemma siblings_behaviour (g sec f : pyval) (self : APIUrl) :
  siblings g sec f self = (self, behaviour self (Siblings g sec f)).
Proof. unfold siblings. plain_method f. Qed.

Lemma postal_code_behaviour (p c ch m sec f : pyval) (self : APIUrl) :
  postal_code_to_place_name p c ch m sec f self
  = (self, behaviour self (PostalCodeToPlaceName p c ch m sec f)).
Proof. unfold postal_code_to_place_name. plain_method f. Qed.

Lemma wikipedia_fulltext_behaviour (q t l m sec f : pyval) (self : APIUrl) :
  wikipedia_fulltext_search q t l m sec f self
  = (self, behaviour self (WikipediaFulltextSearch q t l m sec f)).
Proof. unfold wikipedia_fulltext_search. plain_method f. Qed.

Lemma wikipedia_bounding_box_behaviour (n e s w l m sec f : pyval) (self : APIUrl) :
  wikipedia_bounding_box n e s w l m sec f self
  = (self, behaviour self (WikipediaBoundingBox n e s w l m sec f)).
Proof. unfold wikipedia_bounding_box. plain_method f. Qed.

Lemma earthquakes_behaviour (n e s w d mm m sec f : pyval) (self : APIUrl) :
  earthquakes_bounding_box n e s w d mm m sec f self
  = (self, behaviour self (EarthquakesBoundingBox n e s w d mm m sec f)).
Proof. unfold earthquakes_bounding_box. plain_method f. Qed.

Lemma weather_bounding_box_behaviour (n e s w m sec f : pyval) (self : APIUrl) :
  weather_station_bounding_box n e s w m sec f self
  = (self, behaviour self (WeatherStationBoundingBox n e s w m sec f)).
Proof. unfold weather_station_bounding_box. plain_method f. Qed.

Lemma weather_icao_behaviour (i sec f : pyval) (self : APIUrl) :
  weather_station_icao i sec f self = (self, behaviour self (WeatherStationIcao i sec f)).
Proof. unfold weather_station_icao. plain_method f. Qed.

Lemma weather_find_nearby_behaviour (la lo r sec f : pyval) (self : APIUrl) :
  weather_station_find_nearby la lo r sec f self
  = (self, behaviour self (WeatherStationFindNearby la lo r sec f)).
Proof. unfold weather_station_find_nearby. plain_method f. Qed.

Lemma ocean_behaviour (la lo r sec f : pyval) (self : APIUrl) :
  ocean la lo r sec f self = (self, behaviour self (Ocean la lo r sec f)).
Proof. unfold ocean. plain_method f. Qed.

Lemma timezone_behaviour (la lo r l d sec f : pyval) (self : APIUrl) :
  timezone la lo r l d sec f self = (self, behaviour self (Timezone la lo r l d sec f)).
Proof. unfold timezone. plain_method f. Qed.

(** One of the loops over a "str or list" argument. *)
Ltac each_step key :=
  match goal with
  | |- context [add_each ?ks key ?x] =>
      let E := fresh "E" in
      let H := fresh "H" in
      pose proof (add_each_iterable ks key x) as H;
      destruct (add_each ks key x) as [?|?] eqn:E;
      [ simpl in H; rewrite <- H; apply add_each_ok in E; subst
      | apply add_each_raises in E; destruct E as [-> E]; rewrite E; reflexivity ]
  end.

Lemma wikipedia_find_nearby_behaviour (la lo p r l m c sec f : pyval) (self : APIUrl) :
  wikipedia_find_nearby la lo p r l m c sec f self
  = (self, behaviour self (WikipediaFindNearby la lo p r l m c sec f)).
Proof.
  unfold wikipedia_find_nearby, bind. rewrite bare_end_point_plain.
  unfold behaviour, format_error, url_of, bare_url, base_of, format_suffix, assert_,
    ret, raise;
  cbn [output_format_of secure_of end_point_of precondition iterables
       bare_without_additional parameters].
  destruct (truthy f);
    [ destruct f; try reflexivity; rewrite andb_true_r;
      destruct (String.eqb (upper s) "CSV"); try reflexivity | ];
    (destruct (is_none p);
     [ destruct (negb (is_none la) && negb (is_none lo)); [|reflexivity]
     | destruct (is_none la || is_none lo); [|reflexivity] ]);
    apply url_eq; keys_normal.
Qed.

Lemma country_info_behaviour (c : pyarg) (l sec f : pyval) (self : APIUrl) :
  country_info c l sec f self = (self, behaviour self (CountryInfo c l sec f)).
Proof.
  unfold country_info, bind. rewrite bare_end_point_csv.
  unfold behaviour, format_error, url_of, bare_url, base_of, format_suffix, lift,
    ret, raise;
  cbn [output_format_of secure_of end_point_of precondition iterables
       bare_without_additional parameters].
  destruct (truthy f);
    [ destruct f; try reflexivity; rewrite andb_false_r | ];
    (each_step "country"; apply url_eq; keys_normal).
Qed.

Lemma search_behaviour (a : SearchArgs.t) (self : APIUrl) :
  search a self = (self, behaviour self (Search a)).
Proof.
  unfold search, bind, behaviour, format_error, url_of, base_of, format_suffix,
    assert_, get_self, lift, ret, raise, _create_base_url;
  cbn [output_format_of secure_of end_point_of precondition iterables parameters].
  destruct (any [SearchArgs.q a; SearchArgs.name a; SearchArgs.name_equals a]);
    [|reflexivity].
  rewrite !add_key_value_app.
  each_step "country". each_step "featureClass". each_step "featureCode".
  cbn [andb].
  replace (if truthy (SearchArgs.secure a)
           then if truthy (SearchArgs.secure a)
                then "https://secure.geonames.org/" else "http://api.geonames.org/"
           else _base_url self)
    with (if truthy (SearchArgs.secure a)
          then "https://secure.geonames.org/" else _base_url self)
    by now destruct (truthy (SearchArgs.secure a)).
  change ("search" ++ "" ++ "?" ++ ?x) with ("search?" ++ x).
  rewrite append_assoc. do 4 f_equal.
  destruct (none_not_in [SearchArgs.north a; SearchArgs.east a; SearchArgs.south a;
                         SearchArgs.west a]);
    keys_normal.
Qed.

(** The source and the closed form agree on every call. *)
Lemma run_behaviour (k : call) (self : APIUrl) :
  run k self = (self, behaviour self k).
Proof.
  destruct k; cbn [run].
  - apply search_behaviour.
  - apply cities_behaviour.
  - apply children_behaviour.
  - apply neighbours_behaviour.
  - apply hierarchy_behaviour.
  - apply siblings_behaviour.
  - apply postal_code_behaviour.
  - apply wikipedia_find_nearby_behaviour.
  - apply wikipedia_fulltext_behaviour.
  - apply wikipedia_bounding_box_behaviour.
  - apply earthquakes_behaviour.
  - apply weather_bounding_box_behaviour.
  - apply weather_icao_behaviour.
  - apply weather_find_nearby_behaviour.
  - apply country_info_behaviour.
  - apply ocean_behaviour.
  - apply timezone_behaviour.
Qed.

Lemma outcome_behaviour (k : call) (self : APIUrl) :
  outcome (run k) self = behaviour self k.
Proof. unfold outcome. now rewrite run_behaviour. Qed.

Lemma self_after_run (k : call) (self : APIUrl) :
  self_after (run k) self = self.
Proof. unfold self_after. now rewrite run_behaviour. Qed.

(** ** Constructed objects and the URLs of their calls *)

Lemma init_inv (u s f : pyval) (self : APIUrl) :
  __init__ u s f = Ok self ->
  exists name b,
    u = PyStr name /\ s = PyBool b /\ username self = name /\
    _base_url self = (if b then "https://secure.geonames.org/"
                      else "http://api.geonames.org/") /\
    (default_output_format self = "JSON" \/ default_output_format self = "XML").
Proof.
  unfold __init__. destruct u as [| | | |name|]; try discriminate.
  destruct s as [|b| | | |]; try discriminate. cbn [isinstance_str isinstance_bool negb].
  destruct (in_strings f ["JSON"; "XML"]) eqn:Hf; [|discriminate].
  cbn [negb]. intros H. inversion H; subst; clear H. cbn.
  exists name, b. repeat split.
  destruct f; try discriminate. cbn in Hf.
  destruct (String.eqb_spec s "JSON"); [now left|].
  destruct (String.eqb_spec s "XML"); [now right|discriminate].
Qed.

Lemma after_self (history : list call) (self : APIUrl) :
  after history self = self.
Proof.
  induction history as [|k rest IH]; cbn [after]; [reflexivity|].
  now rewrite self_after_run.
Qed.

Lemma behaviour_ok (self : APIUrl) (k : call) (url : string) :
  behaviour self k = Ok url -> url = url_of self k.
Proof.
  unfold behaviour. destruct (format_error k); [discriminate|].
  destruct (precondition k); [|discriminate].
  destruct (iterables k); [|discriminate]. congruence.
Qed.

Lemma run_ok (self : APIUrl) (k : call) (url : string) :
  outcome (run k) self = Ok url -> url = url_of self k.
Proof. rewrite outcome_behaviour. apply behaviour_ok. Qed.

Lemma end_point_clean (k : call) : contains "?" (end_point_of k) = false.
Proof. destruct k; reflexivity. Qed.

Lemma suffix_clean (self : APIUrl) (f : pyval) : contains "?" (suffix_of self f) = false.
Proof.
  unfold suffix_of. destruct (truthy f).
  - destruct f; try reflexivity.
    destruct (String.eqb (upper s) "JSON"); [reflexivity|].
    destruct (String.eqb (upper s) "CSV"); reflexivity.
  - destruct (String.eqb (default_output_format self) "JSON"); reflexivity.
Qed.

Lemma base_of_cases (self : APIUrl) (k : call) :
  constructed self ->
  base_of self k = "https://secure.geonames.org/" \/
  base_of self k = "http://api.geonames.org/".
Proof.
  intros (u & s & f & H). apply init_inv in H.
  destruct H as (name & b & _ & _ & _ & Hb & _).
  unfold base_of. destruct (truthy (secure_of k)); [now left|].
  rewrite Hb. destruct b; [now left|now right].
Qed.

Lemma head_clean (self : APIUrl) (k : call) :
  constructed self ->
  contains "?" (base_of self k ++ end_point_of k ++ format_suffix self k) = false.
Proof.
  intros Hc. rewrite !contains_app, end_point_clean.
  assert (Hs : contains "?" (format_suffix self k) = false)
    by (destruct k; try apply suffix_clean; reflexivity).
  rewrite Hs. destruct (base_of_cases self k Hc) as [-> | ->]; reflexivity.
Qed.

Lemma url_of_head (self : APIUrl) (k : call) :
  url_of self k
  = (base_of self k ++ end_point_of k ++ format_suffix self k) ++ "?"
    ++ urlencode (("username", username self) :: present (parameters self k)).
Proof. unfold url_of. now rewrite !append_assoc. Qed.

Lemma query_pairs_url_of (self : APIUrl) (k : call) :
  constructed self ->
  query_pairs (url_of self k)
  = map quote_pair (("username", username self) :: present (parameters self k)).
Proof.
  intros Hc. rewrite url_of_head.
  apply query_pairs_urlencode; [now apply head_clean|discriminate].
Qed.

Lemma path_of_url_of (self : APIUrl) (k : call) :
  constructed self ->
  path_of (url_of self k) = base_of self k ++ end_point_of k ++ format_suffix self k.
Proof.
  intros Hc. rewrite url_of_head.
  now destruct (query_of_url _ (urlencode (("username", username self)
                                  :: present (parameters self k)))
                  (head_clean self k Hc)) as [_ ->].
Qed.

Lemma constructed_api_key : constructed api_key.
Proof. exists (PyStr "API_KEY"), (PyBool true), (PyStr "JSON"). reflexivity. Qed.

(** ** Counting keys *)

Lemma count_key_app (key : string) (l1 l2 : list (string * string)) :
  count_key key (l1 ++ l2) = count_key key l1 + count_key key l2.
Proof. unfold count_key. now rewrite filter_app, length_app. Qed.

Lemma count_key_present1 (key k : string) (v : pyval) :
  count_key key (map quote_pair (present1 k v))
  = if String.eqb (quote_plus k) key then (if is_none v then 0 else 1) else 0.
Proof.
  unfold present1, count_key. destruct (is_none v); cbn.
  - now destruct (String.eqb (quote_plus k) key).
  - now destruct (String.eqb (quote_plus k) key).
Qed.

Lemma count_key_each (key k : string) (x : pyarg) :
  String.eqb (quote_plus k) key = false ->
  count_key key (map quote_pair (present (each k x))) = 0.
Proof.
  intros Hk. unfold count_key.
  assert (H : forall l, filter (fun kv => String.eqb (fst kv) key)
                          (map quote_pair (present (map (fun v => (k, v)) l))) = []).
  { induction l as [|v l IH]; [reflexivity|].
    cbn [map]. rewrite present_cons, map_app, filter_app, IH, app_nil_r.
    unfold present1. destruct (is_none v); [reflexivity|]. cbn. now rewrite Hk. }
  destruct x as [v|l]; cbn [each].
  - change [(k, v)] with (map (fun v => (k, v)) [v]). now rewrite H.
  - now rewrite H.
Qed.

(** * The properties of the specification *)

(** ** C1: the pairs of the query string *)

(** C1, as stated, fails: [search] called with [q="x"] and [north=1] (the
    other three edges left at [None]) returns a URL, [north] is not [None],
    and no pair of the query string has the key [north]. *)
Lemma C1_counterexample :
  let a := SearchArgs.with_bbox (PyInt 1) PyNone PyNone PyNone
             (SearchArgs.with_q (PyStr "x") SearchArgs.defaults) in
  is_none (SearchArgs.north a) = false /\
  exists url,
    outcome (run (Search a)) api_key = Ok url /\
    count_key "north" (query_pairs url) = 0.
Proof.
  split; [reflexivity|].
  exists "https://secure.geonames.org/search?username=API_KEY&q=x&type=JSON".
  split; reflexivity.
Qed.

(** Two more ways in which an argument does not stand for one pair: a list
    gives a pair for each of its elements, and [search] sends the default
    output format when [output_format] is [None]. *)
Example search_list_argument :
  exists url,
    outcome (search (SearchArgs.with_country (Many [PyStr "DE"; PyStr "NL"])
                       (SearchArgs.with_q (PyStr "x") SearchArgs.defaults))) api_key
    = Ok url /\
    count_key "country" (query_pairs url) = 2 /\
    count_key "type" (query_pairs url) = 1.
Proof.
  exists "https://secure.geonames.org/search?username=API_KEY&q=x&country=DE&country=NL&type=JSON".
  repeat split.
Qed.

(** C1 (amended): for every endpoint method, on an object built by the
    constructor, the query string of the returned URL is the pair of
    [username] followed by one percent-encoded pair for each argument of
    [parameters] that is not [None], in the order in which the method adds
    them, and nothing for an argument that is [None].  [parameters] lists
    each query argument of the method once, except that a list stands for
    its elements, that [search] lists its four edges only when none of them
    is [None], and that [search] lists the default output format for a
    [None] one; [secure] is never listed, and neither is [output_format]
    outside [search]. *)
Theorem C1_query_pairs_in_assembly_order (k : call) (self : APIUrl) (url : string) :
  constructed self ->
  outcome (run k) self = Ok url ->
  query_pairs url
  = map quote_pair
      (("username", username self)
       :: map (fun kv => (fst kv, str (snd kv)))
            (filter (fun kv => negb (is_none (snd kv))) (parameters self k))).
Proof.
  intros Hc Hrun. apply run_ok in Hrun. subst url.
  now apply query_pairs_url_of.
Qed.

Lemma C1_witness :
  query_pairs
    "https://secure.geonames.org/timezoneJSON?username=API_KEY&lat=1&lng=2&date=999-01-02"
  = [("username", "API_KEY"); ("lat", "1"); ("lng", "2"); ("date", "999-01-02")].
Proof.
  exact (C1_query_pairs_in_assembly_order
           (Timezone (PyInt 1) (PyInt 2) PyNone PyNone (PyDate 999 1 2) PyNone PyNone)
           api_key _ constructed_api_key eq_refl).
Defined.

(** ** C2: the precondition of [search] *)

(** C2, as stated, fails: with [q=""] the parameter [q] is set (it is not
    [None]) and the call raises the assertion error all the same. *)
Lemma C2_counterexample :
  let a := SearchArgs.with_q (PyStr "") SearchArgs.defaults in
  is_none (SearchArgs.q a) = false /\
  outcome (search a) api_key = Raise AssertionError.
Proof. split; reflexivity. Qed.

(** C2 (amended): for every call to [search], if none of [q], [name],
    [name_equals] is truthy (each is [None] or a falsy value such as the
    empty string), the call raises an assertion error and returns no URL; if
    at least one of them is truthy, the precondition check passes, and a URL
    is returned when [country], [feature_class] and [feature_code] are each
    [None], a [str] or a list (any other value there raises a [TypeError]
    from the loop over it). *)
Theorem C2_search_precondition (a : SearchArgs.t) (self : APIUrl) :
  (any [SearchArgs.q a; SearchArgs.name a; SearchArgs.name_equals a] = false ->
   outcome (search a) self = Raise AssertionError) /\
  (any [SearchArgs.q a; SearchArgs.name a; SearchArgs.name_equals a] = true ->
   (iterables (Search a) = true -> exists url, outcome (search a) self = Ok url) /\
   (iterables (Search a) = false -> outcome (search a) self = Raise TypeError)).
Proof.
  change (search a) with (run (Search a)). rewrite outcome_behaviour.
  unfold behaviour. cbn [format_error precondition].
  split; [intros ->; reflexivity|]. intros ->.
  split; intros ->; [eexists|]; reflexivity.
Qed.

Lemma C2_witness :
  outcome (search SearchArgs.defaults) api_key = Raise AssertionError /\
  (exists url,
     outcome (search (SearchArgs.with_q (PyStr "costa del sol") SearchArgs.defaults))
       api_key = Ok url) /\
  outcome (search (SearchArgs.with_country (One (PyInt 5))
                     (SearchArgs.with_q (PyStr "costa del sol") SearchArgs.defaults)))
    api_key = Raise TypeError.
Proof.
  split; [|split].
  - exact (proj1 (C2_search_precondition SearchArgs.defaults api_key) eq_refl).
  - exact (proj1 (proj2 (C2_search_precondition
                           (SearchArgs.with_q (PyStr "costa del sol") SearchArgs.defaults)
                           api_key) eq_refl) eq_refl).
  - exact (proj2 (proj2 (C2_search_precondition
                           (SearchArgs.with_country (One (PyInt 5))
                              (SearchArgs.with_q (PyStr "costa del sol")
                                 SearchArgs.defaults))
                           api_key) eq_refl) eq_refl).
Defined.

(** ** C3: the bounding-box methods *)

(** C3 does not hold of the code: with the edge [north=0.0] (the equator)
    and the other three edges set, all four edges are set, and
    [wikipedia_bounding_box], [earthquakes_bounding_box] and
    [weather_station_bounding_box] raise the assertion error, while
    [cities_and_place_names_bounding_box], which asserts
    [None not in (north, east, south, west)] under the same message, returns
    a URL for the same box. *)
Theorem C3_zero_edge_rejected :
  let n := PyFloat "0.0" in
  let e := PyFloat "10.5" in
  let s := PyFloat "-9.9" in
  let w := PyFloat "-22.4" in
  none_not_in [n; e; s; w] = true /\
  outcome (wikipedia_bounding_box n e s w PyNone PyNone PyNone PyNone) api_key
  = Raise AssertionError /\
  outcome (earthquakes_bounding_box n e s w PyNone PyNone PyNone PyNone PyNone) api_key
  = Raise AssertionError /\
  outcome (weather_station_bounding_box n e s w PyNone PyNone PyNone) api_key
  = Raise AssertionError /\
  outcome (cities_and_place_names_bounding_box n e s w PyNone PyNone PyNone PyNone) api_key
  = Ok "https://secure.geonames.org/citiesJSON?username=API_KEY&north=0.0&east=10.5&south=-9.9&west=-22.4".
Proof. repeat split. Qed.

(** What the three methods do in general: once the output format is
    accepted, they return exactly when the four edges are all truthy. *)
Lemma asserted_edges_outcome (k : call) (edges : list pyval) (self : APIUrl) :
  asserted_edges k = Some edges ->
  format_accepted false (output_format_of k) = true ->
  outcome (run k) self = if all edges then Ok (url_of self k) else Raise AssertionError.
Proof.
  intros Hk Hf. rewrite outcome_behaviour. unfold behaviour.
  destruct k; try discriminate; cbn in Hk; injection Hk as <-;
    cbn [format_error output_format_of bare_without_additional precondition iterables] in *;
    unfold format_accepted in Hf;
    (destruct (truthy output_format);
     [ destruct output_format; try discriminate; cbn in Hf; rewrite andb_true_r;
       match goal with
       | |- context [String.eqb ?u "CSV"] => destruct (String.eqb u "CSV")
       end; [discriminate|]
     | ]); reflexivity.
Qed.

(** ** C4: the bounding box of [search] *)

Lemma none_not_in_four (n e s w : pyval) :
  none_not_in [n; e; s; w] = true ->
  is_none n = false /\ is_none e = false /\ is_none s = false /\ is_none w = false.
Proof.
  unfold none_not_in. cbn [forallb]. rewrite !andb_true_iff, !negb_true_iff. tauto.
Qed.

Lemma search_with_bbox_ok (n e s w : pyval) (a : SearchArgs.t) (self : APIUrl) :
  is_ok (outcome (search (SearchArgs.with_bbox n e s w a)) self)
  = is_ok (outcome (search a) self).
Proof.
  change (search ?x) with (run (Search x)). rewrite !outcome_behaviour.
  unfold behaviour. cbn [format_error precondition iterables].
  destruct a; cbn.
  repeat match goal with
         | |- context [if ?c then _ else _] => destruct c
         end; reflexivity.
Qed.

(** C4: in a URL [search] returns, each of the keys [north], [east], [south],
    [west] stands in the query string (once) exactly when all four arguments
    are not [None], and in no pair otherwise; and the edges never make the
    call fail: with any other values for them it returns a URL as well. *)
Theorem C4_search_bounding_box (a : SearchArgs.t) (self : APIUrl) (url : string) :
  constructed self ->
  outcome (search a) self = Ok url ->
  (forall key, In key ["north"; "east"; "south"; "west"] ->
     count_key key (query_pairs url)
     = if none_not_in [SearchArgs.north a; SearchArgs.east a;
                       SearchArgs.south a; SearchArgs.west a]
       then 1 else 0) /\
  (forall n e s w,
     is_ok (outcome (search (SearchArgs.with_bbox n e s w a)) self) = true).
Proof.
  intros Hc Hrun. split.
  - change (search a) with (run (Search a)) in Hrun.
    apply run_ok in Hrun. subst url. rewrite (query_pairs_url_of _ _ Hc).
    intros key Hkey. cbn [map].
    change (quote_pair ("username", username self) :: ?l)
      with ([quote_pair ("username", username self)] ++ l)%list.
    cbn [parameters].
    destruct (none_not_in [SearchArgs.north a; SearchArgs.east a; SearchArgs.south a;
                           SearchArgs.west a]) eqn:Hbox.
    + apply none_not_in_four in Hbox. destruct Hbox as (Hn & He & Hs & Hw).
      rewrite ?present_app, ?map_app, ?count_key_app, ?present_cons, ?present_nil,
        ?map_app, ?count_key_app, ?count_key_present1.
      cbn in Hkey. destruct Hkey as [<-|[<-|[<-|[<-|[]]]]];
        rewrite !count_key_each by reflexivity;
        rewrite ?Hn, ?He, ?Hs, ?Hw; reflexivity.
    + rewrite ?present_app, ?map_app, ?count_key_app, ?present_cons, ?present_nil,
        ?map_app, ?count_key_app, ?count_key_present1.
      cbn in Hkey. destruct Hkey as [<-|[<-|[<-|[<-|[]]]]];
        rewrite !count_key_each by reflexivity; reflexivity.
  - intros n e s w. rewrite search_with_bbox_ok, Hrun. reflexivity.
Qed.

Lemma C4_witness :
  count_key "south"
    (query_pairs "https://secure.geonames.org/search?username=API_KEY&q=x&north=1&east=2&south=3&west=4&type=JSON")
  = 1 /\
  is_ok (outcome (search (SearchArgs.with_bbox PyNone (PyInt 7) PyNone PyNone
                            (SearchArgs.with_bbox (PyInt 1) (PyInt 2) (PyInt 3) (PyInt 4)
                               (SearchArgs.with_q (PyStr "x") SearchArgs.defaults))))
           api_key) = true.
Proof.
  pose proof (C4_search_bounding_box
                (SearchArgs.with_bbox (PyInt 1) (PyInt 2) (PyInt 3) (PyInt 4)
                   (SearchArgs.with_q (PyStr "x") SearchArgs.defaults))
                api_key _ constructed_api_key eq_refl) as [Hkeys Hok].
  split.
  - apply (Hkeys "south"). right. right. left. reflexivity.
  - apply Hok.
Defined.

(** ** C5: the prefix of the URL *)

(** C5, as stated, fails: on an object constructed with [secure=False], the
    call [children(1, secure=True)] returns a URL that does not begin with
    "http://api.geonames.org/". *)
Lemma C5_counterexample :
  exists self url,
    __init__ (PyStr "demo") (PyBool false) (PyStr "JSON") = Ok self /\
    outcome (run (Children (PyInt 1) PyNone PyNone (PyBool true) PyNone)) self = Ok url /\
    starts_with "http://api.geonames.org/" url = false /\
    starts_with "https://secure.geonames.org/" url = true.
Proof.
  eexists. eexists. split; [reflexivity|]. split; [reflexivity|]. split; reflexivity.
Qed.

(** C5 (amended): on an object constructed with the secure flag [s], after
    any calls, every URL an endpoint method returns begins with
    "https://secure.geonames.org/" when [s] is true or the call's own
    [secure] argument is truthy, and with "http://api.geonames.org/"
    otherwise. *)
Theorem C5_prefix (u f : pyval) (s : bool) (self : APIUrl) (history : list call)
    (k : call) (url : string) :
  __init__ u (PyBool s) f = Ok self ->
  outcome (run k) (after history self) = Ok url ->
  starts_with
    (if truthy (secure_of k) || s then "https://secure.geonames.org/"
     else "http://api.geonames.org/") url = true.
Proof.
  intros Hinit Hrun. rewrite after_self in Hrun. apply run_ok in Hrun. subst url.
  apply init_inv in Hinit.
  destruct Hinit as (name & b & _ & Hs & _ & Hb & _). inversion Hs; subst b.
  unfold url_of, base_of, starts_with. rewrite Hb.
  destruct (truthy (secure_of k)); [apply prefix_app|].
  destruct s; apply prefix_app.
Qed.

Lemma C5_witness :
  starts_with "http://api.geonames.org/"
    "http://api.geonames.org/hierarchyJSON?username=demo&geonameId=3" = true.
Proof.
  exact (C5_prefix (PyStr "demo") (PyStr "JSON") false
           {| username := "demo"; _base_url := "http://api.geonames.org/";
              default_output_format := "JSON" |}
           [Ocean PyNone PyNone PyNone PyNone PyNone]
           (Hierarchy (PyInt 3) PyNone PyNone) _ eq_refl eq_refl).
Defined.

(** ** C6: determinism *)

(** C6: two objects constructed with equal arguments give, for equal method
    arguments, the same outcome (the same URL, or the same exception),
    whatever calls were made on either of them before. *)
Theorem C6_deterministic (u s f : pyval) (c1 c2 : APIUrl) (h1 h2 : list call) (k : call) :
  __init__ u s f = Ok c1 ->
  __init__ u s f = Ok c2 ->
  outcome (run k) (after h1 c1) = outcome (run k) (after h2 c2).
Proof.
  intros H1 H2. rewrite !after_self. congruence.
Qed.

Lemma C6_witness :
  outcome (run (Siblings (PyInt 3) PyNone PyNone))
    (after [Hierarchy PyNone PyNone PyNone] api_key)
  = outcome (run (Siblings (PyInt 3) PyNone PyNone))
      (after [Ocean (PyInt 1) (PyInt 2) PyNone PyNone (PyStr "CSV")] api_key).
Proof.
  exact (C6_deterministic (PyStr "API_KEY") (PyBool true) (PyStr "JSON") api_key api_key
           [Hierarchy PyNone PyNone PyNone]
           [Ocean (PyInt 1) (PyInt 2) PyNone PyNone (PyStr "CSV")]
           (Siblings (PyInt 3) PyNone PyNone) eq_refl eq_refl).
Defined.

(** ** C7: statelessness *)

(** C7: after any call of any endpoint method, whether it returned a URL or
    raised, the attributes [username], [_base_url] and
    [default_output_format] of the object are what they were before. *)
Theorem C7_fields_unchanged (k : call) (self : APIUrl) :
  username (self_after (run k) self) = username self /\
  _base_url (self_after (run k) self) = _base_url self /\
  default_output_format (self_after (run k) self) = default_output_format self.
Proof. rewrite self_after_run. repeat split. Qed.

(** ** C8: the username *)

(** C8: every URL an endpoint method returns on an object constructed with
    the username [u] has the pair of "username" and the percent-encoded [u]
    as the first pair of its query string, and no other pair with that
    key. *)
Theorem C8_username_first (u : string) (s f : pyval) (self : APIUrl) (k : call)
    (url : string) :
  __init__ (PyStr u) s f = Ok self ->
  outcome (run k) self = Ok url ->
  hd_error (query_pairs url) = Some ("username", quote_plus u) /\
  count_key "username" (query_pairs url) = 1.
Proof.
  intros Hinit Hrun.
  assert (Hc : constructed self) by (now exists (PyStr u), s, f).
  apply run_ok in Hrun. subst url. rewrite (query_pairs_url_of _ _ Hc).
  apply init_inv in Hinit.
  destruct Hinit as (name & b & Hu & _ & Hn & _). injection Hu as <-.
  rewrite Hn. split; [reflexivity|].
  cbn [map]. change (quote_pair ("username", u) :: ?l)
    with ([quote_pair ("username", u)] ++ l)%list.
  rewrite count_key_app.
  enough (H : count_key "username" (map quote_pair (present (parameters self k))) = 0)
    by (rewrite H; reflexivity).
  destruct k; cbn [parameters];
    rewrite ?present_app, ?map_app, ?count_key_app, ?present_cons, ?present_nil,
      ?map_app, ?count_key_app, ?count_key_present1, ?count_key_each by reflexivity;
    try reflexivity.
  destruct (none_not_in _);
    rewrite ?present_cons, ?present_nil, ?map_app, ?count_key_app, ?count_key_present1;
    reflexivity.
Qed.

Lemma C8_witness :
  hd_error (query_pairs "https://secure.geonames.org/oceanJSON?username=API_KEY&lat=52.008544&lng=4.093947")
  = Some ("username", "API_KEY") /\
  count_key "username"
    (query_pairs "https://secure.geonames.org/oceanJSON?username=API_KEY&lat=52.008544&lng=4.093947")
  = 1.
Proof.
  exact (C8_username_first "API_KEY" (PyBool true) (PyStr "JSON") api_key
           (Ocean (PyFloat "52.008544") (PyFloat "4.093947") PyNone PyNone PyNone) _
           eq_refl eq_refl).
Defined.

(** ** C9: the output format "CSV" *)

Lemma ends_with_app (p s : string) : ends_with s (p ++ s) = true.
Proof.
  induction p as [|c p IH].
  - destruct s; cbn; [reflexivity|]. now rewrite Ascii.eqb_refl, String.eqb_refl.
  - cbn [append ends_with]. rewrite IH. apply orb_true_r.
Qed.

Lemma upper_CSV_truthy (f : string) : upper f = "CSV" -> truthy (PyStr f) = true.
Proof. destruct f; [discriminate|reflexivity]. Qed.

(** C9: let [f] read "CSV" in upper case.  Every method that builds its URL
    through [_create_bare_end_point] without additional output formats
    raises a [TypeError] when called with [output_format=f], whatever its
    other arguments (so it neither returns a URL nor fails its assertion);
    [country_info] called with [output_format=f] (and a [country] it can
    loop over) returns a URL whose path is the base URL followed by
    "countryInfoCSV". *)
Theorem C9_csv_output_format (self : APIUrl) (f : string) :
  constructed self ->
  upper f = "CSV" ->
  (forall k, bare_without_additional k = true -> output_format_of k = PyStr f ->
     outcome (run k) self = Raise TypeError) /\
  (forall c l sec, iterable c = true ->
     exists url,
       outcome (country_info c l sec (PyStr f)) self = Ok url /\
       path_of url = base_of self (CountryInfo c l sec (PyStr f)) ++ "countryInfoCSV" /\
       ends_with "CSV" (path_of url) = true).
Proof.
  intros Hc Hf. pose proof (upper_CSV_truthy f Hf) as Ht. split.
  - intros k Hk Hof. rewrite outcome_behaviour. unfold behaviour.
    assert (He : format_error k = Some TypeError).
    { destruct k; try discriminate; cbn [format_error output_format_of] in *;
        rewrite Hof, Ht, Hf; reflexivity. }
    now rewrite He.
  - intros c l sec Hi. exists (url_of self (CountryInfo c l sec (PyStr f))).
    change (country_info c l sec (PyStr f)) with (run (CountryInfo c l sec (PyStr f))).
    rewrite outcome_behaviour. unfold behaviour.
    cbn [format_error output_format_of bare_without_additional precondition iterables].
    rewrite Ht, Hi, andb_false_r.
    split; [reflexivity|].
    rewrite (path_of_url_of _ _ Hc).
    assert (Hp : base_of self (CountryInfo c l sec (PyStr f))
                 ++ end_point_of (CountryInfo c l sec (PyStr f))
                 ++ format_suffix self (CountryInfo c l sec (PyStr f))
                 = base_of self (CountryInfo c l sec (PyStr f)) ++ "countryInfoCSV").
    { cbn [end_point_of format_suffix output_format_of]. unfold suffix_of.
      rewrite Ht, Hf. reflexivity. }
    rewrite Hp. split; [reflexivity|].
    change "countryInfoCSV" with ("countryInfo" ++ "CSV").
    rewrite <- append_assoc. apply ends_with_app.
Qed.

Lemma C9_witness :
  outcome (run (Ocean (PyFloat "52.008544") (PyFloat "4.093947") PyNone PyNone (PyStr "csv")))
    api_key = Raise TypeError /\
  exists url,
    outcome (country_info (One (PyStr "NL")) PyNone PyNone (PyStr "csv")) api_key = Ok url /\
    path_of url = "https://secure.geonames.org/countryInfoCSV" /\
    ends_with "CSV" (path_of url) = true.
Proof.
  pose proof (C9_csv_output_format api_key "csv" constructed_api_key eq_refl)
    as [Hplain Hinfo].
  split.
  - apply Hplain; reflexivity.
  - apply (Hinfo (One (PyStr "NL")) PyNone PyNone). reflexivity.
Defined.

(** ** C10: the coordinates *)

(** C10: [timezone], [ocean] and [weather_station_find_nearby], called with
    an output format the helper accepts, return a URL exactly when at least
    one of [latitude], [longitude] is truthy.  So a call with a truthy
    (nonzero) latitude and [longitude=None] returns a URL, which has one pair
    with the key [lat] and none with the key [lng]; and a call in which both
    are given but falsy, such as [latitude=0] and [longitude=0], raises the
    assertion error. *)
Theorem C10_one_truthy_coordinate (k : call) (la lo : pyval) (self : APIUrl) :
  constructed self ->
  coordinates k = Some (la, lo) ->
  format_accepted false (output_format_of k) = true ->
  is_ok (outcome (run k) self) = truthy la || truthy lo /\
  (truthy la = true -> lo = PyNone ->
   exists url,
     outcome (run k) self = Ok url /\
     count_key "lat" (query_pairs url) = 1 /\
     count_key "lng" (query_pairs url) = 0) /\
  (truthy la = false -> truthy lo = false ->
   outcome (run k) self = Raise AssertionError).
Proof.
  intros Hc Hk Hf.
  assert (He : format_error k = None).
  { unfold format_accepted in Hf.
    destruct k; try discriminate;
      cbn [format_error output_format_of bare_without_additional] in *;
      (destruct (truthy output_format);
       [ destruct output_format; try discriminate; cbn in Hf; rewrite andb_true_r;
         match goal with
         | |- context [String.eqb ?u "CSV"] => destruct (String.eqb u "CSV")
         end; [discriminate|reflexivity]
       | reflexivity ]). }
  assert (Hp : precondition k = truthy la || truthy lo)
    by (destruct k; try discriminate; cbn in Hk; injection Hk as <- <-; reflexivity).
  assert (Hi : iterables k = true) by (destruct k; try discriminate; reflexivity).
  rewrite outcome_behaviour. unfold behaviour. rewrite He, Hp, Hi.
  split; [now destruct (truthy la || truthy lo)|]. split.
  - intros Hla ->. rewrite Hla. cbn [orb]. exists (url_of self k).
    split; [reflexivity|]. rewrite (query_pairs_url_of _ _ Hc).
    assert (Hn : is_none la = false) by (destruct la; [discriminate|reflexivity..]).
    destruct k; try discriminate; cbn in Hk; injection Hk as -> ->;
      cbn [parameters map];
      change (quote_pair ("username", username self) :: ?l)
        with ([quote_pair ("username", username self)] ++ l)%list;
      rewrite ?present_cons, ?present_nil, ?map_app, ?count_key_app, ?count_key_present1,
        ?Hn; split; reflexivity.
  - intros -> ->. reflexivity.
Qed.

Lemma C10_witness :
  is_ok (outcome (run (Ocean (PyFloat "52.008544") PyNone PyNone PyNone PyNone)) api_key)
  = true /\
  (exists url,
     outcome (run (Ocean (PyFloat "52.008544") PyNone PyNone PyNone PyNone)) api_key = Ok url /\
     count_key "lat" (query_pairs url) = 1 /\
     count_key "lng" (query_pairs url) = 0) /\
  outcome (run (Timezone (PyInt 0) (PyInt 0) PyNone PyNone PyNone PyNone PyNone)) api_key
  = Raise AssertionError.
Proof.
  split; [|split].
  - exact (proj1 (C10_one_truthy_coordinate
                    (Ocean (PyFloat "52.008544") PyNone PyNone PyNone PyNone)
                    (PyFloat "52.008544") PyNone api_key
                    constructed_api_key eq_refl eq_refl)).
  - exact (proj1 (proj2 (C10_one_truthy_coordinate
                    (Ocean (PyFloat "52.008544") PyNone PyNone PyNone PyNone)
                    (PyFloat "52.008544") PyNone api_key
                    constructed_api_key eq_refl eq_refl)) eq_refl eq_refl).
  - exact (proj2 (proj2 (C10_one_truthy_coordinate
                    (Timezone (PyInt 0) (PyInt 0) PyNone PyNone PyNone PyNone PyNone)
                    (PyInt 0) (PyInt 0) api_key
                    constructed_api_key eq_refl eq_refl)) eq_refl eq_refl).
Defined.

(** * Further properties of the code *)

(** ** Decoding the query string *)

Lemma unquote_quote_byte (a : ascii) (rest : string) :
  unquote_plus (quote_byte a ++ rest) = String a (unquote_plus rest).
Proof. destruct a as [[] [] [] [] [] [] [] []]; reflexivity. Qed.

Lemma unquote_quote_plus (s : string) : unquote_plus (quote_plus s) = s.
Proof.
  induction s as [|a s IH]; [reflexivity|].
  cbn [quote_plus]. now rewrite unquote_quote_byte, IH.
Qed.

Lemma unquote_quote_pairs (l : keys_t) : map unquote_pair (map quote_pair l) = l.
Proof.
  rewrite map_map. rewrite <- (map_id l) at 2. apply map_ext.
  intros [k v]. unfold unquote_pair, quote_pair. cbn.
  now rewrite !unquote_quote_plus.
Qed.

(** X1: decoding the query string of a returned URL gives back the username
    and, pair for pair, the key and the text sent for every present argument
    ([str] of the argument; for the date of [timezone] and
    [earthquakes_bounding_box], what [strftime] makes of it). *)
Theorem X1_query_round_trip (k : call) (self : APIUrl) (url : string) :
  constructed self ->
  outcome (run k) self = Ok url ->
  map unquote_pair (query_pairs url)
  = ("username", username self) :: present (parameters self k).
Proof.
  intros Hc Hrun. apply run_ok in Hrun. subst url.
  now rewrite (query_pairs_url_of _ _ Hc), unquote_quote_pairs.
Qed.

Lemma X1_witness :
  map unquote_pair
    (query_pairs "https://secure.geonames.org/timezoneJSON?username=API_KEY&lat=1&lng=2&lang=a+b%26c&date=999-01-02")
  = [("username", "API_KEY"); ("lat", "1"); ("lng", "2"); ("lang", "a b&c");
     ("date", "999-01-02")].
Proof.
  exact (X1_query_round_trip
           (Timezone (PyInt 1) (PyInt 2) PyNone (PyStr "a b&c") (PyDate 999 1 2) PyNone PyNone)
           api_key _ constructed_api_key eq_refl).
Defined.

(** X2: a returned URL fixes what is sent.  Two calls, on objects built by
    the constructor, that return the same URL have the same path (base URL,
    endpoint and format suffix), the same username and the same pairs of key
    and text, in the same order.  The arguments themselves may differ where
    the URL does not show it: 3 and "3" have one text, and an argument that
    adds no pair leaves no trace. *)
Theorem X2_url_fixes_what_is_sent (k1 k2 : call) (self1 self2 : APIUrl) (url : string) :
  constructed self1 -> constructed self2 ->
  outcome (run k1) self1 = Ok url ->
  outcome (run k2) self2 = Ok url ->
  base_of self1 k1 ++ end_point_of k1 ++ format_suffix self1 k1
  = base_of self2 k2 ++ end_point_of k2 ++ format_suffix self2 k2 /\
  username self1 = username self2 /\
  present (parameters self1 k1) = present (parameters self2 k2).
Proof.
  intros Hc1 Hc2 H1 H2. apply run_ok in H1. apply run_ok in H2.
  assert (Hurl : url_of self1 k1 = url_of self2 k2) by congruence.
  split.
  - now rewrite <- (path_of_url_of _ _ Hc1), <- (path_of_url_of _ _ Hc2), Hurl.
  - assert (H : map unquote_pair (query_pairs (url_of self1 k1))
                = map unquote_pair (query_pairs (url_of self2 k2))) by congruence.
    rewrite (query_pairs_url_of _ _ Hc1), (query_pairs_url_of _ _ Hc2),
      !unquote_quote_pairs in H.
    injection H as Hu Hp. now split.
Qed.

Lemma X2_witness :
  "https://secure.geonames.org/hierarchyJSON" = "https://secure.geonames.org/hierarchyJSON" /\
  "API_KEY" = "API_KEY" /\
  [("geonameId", "3")] = [("geonameId", "3")].
Proof.
  exact (X2_url_fixes_what_is_sent (Hierarchy (PyInt 3) PyNone PyNone)
           (Hierarchy (PyStr "3") (PyBool true) (PyStr "json")) api_key api_key
           "https://secure.geonames.org/hierarchyJSON?username=API_KEY&geonameId=3"
           constructed_api_key constructed_api_key eq_refl eq_refl).
Defined.

(** ** The bytes of the query string *)

Lemma forall_bytes_app (p : ascii -> bool) (s t : string) :
  forall_bytes p (s ++ t) = forall_bytes p s && forall_bytes p t.
Proof.
  induction s as [|a s IH]; cbn; [reflexivity|]. now rewrite IH, andb_assoc.
Qed.

Lemma quote_byte_query (a : ascii) : forall_bytes query_byte (quote_byte a) = true.
Proof. destruct a as [[] [] [] [] [] [] [] []]; reflexivity. Qed.

Lemma quote_plus_query (s : string) : forall_bytes query_byte (quote_plus s) = true.
Proof.
  induction s as [|a s IH]; [reflexivity|].
  cbn [quote_plus]. now rewrite forall_bytes_app, quote_byte_query, IH.
Qed.

Lemma urlencode_query (keys : keys_t) : forall_bytes query_byte (urlencode keys) = true.
Proof.
  unfold urlencode. induction keys as [|[k v] keys IH]; [reflexivity|].
  cbn [map]. destruct keys as [|kv keys].
  - cbn [map join fst snd]. rewrite !forall_bytes_app, !quote_plus_query. reflexivity.
  - change (join "&" (?x :: map ?f (kv :: keys)))
      with (x ++ "&" ++ join "&" (map f (kv :: keys))).
    cbn [fst snd]. rewrite !forall_bytes_app, !quote_plus_query, IH. reflexivity.
Qed.

(** X3: the query string of a returned URL is made of letters, digits and
    [_.-~+%&=] only: whatever the arguments hold (spaces, separators, bytes
    outside ASCII), nothing else gets into it. *)
Theorem X3_query_bytes (k : call) (self : APIUrl) (url : string) :
  constructed self ->
  outcome (run k) self = Ok url ->
  forall_bytes query_byte (query_of url) = true.
Proof.
  intros Hc Hrun. apply run_ok in Hrun. subst url. rewrite url_of_head.
  destruct (query_of_url _ (urlencode (("username", username self)
                              :: present (parameters self k)))
              (head_clean self k Hc)) as [-> _].
  apply urlencode_query.
Qed.

Lemma X3_witness :
  forall_bytes query_byte
    (query_of "https://secure.geonames.org/wikipediaSearchJSON?username=API_KEY&q=a%3F+b%2F%C3%BC")
  = true.
Proof.
  exact (X3_query_bytes
           (WikipediaFulltextSearch (PyStr (String "a" (String "?" (String " " (String "b"
              (String "/" (String "195" (String "188" ""))))))))
              PyNone PyNone PyNone PyNone PyNone)
           api_key _ constructed_api_key eq_refl).
Defined.

(** ** What a returned URL says about the checks *)

Lemma behaviour_ok_checks (self : APIUrl) (k : call) (url : string) :
  behaviour self k = Ok url ->
  format_error k = None /\ precondition k = true /\ iterables k = true /\
  url = url_of self k.
Proof.
  unfold behaviour. destruct (format_error k); [discriminate|].
  destruct (precondition k); [|discriminate].
  destruct (iterables k); [|discriminate]. intros H. injection H as <-. auto.
Qed.

Lemma format_accepted_no_error (k : call) :
  bare_without_additional k = true ->
  format_accepted false (output_format_of k) = true ->
  format_error k = None.
Proof.
  intros Hk Hf. unfold format_accepted in Hf.
  destruct k; try discriminate;
    cbn [format_error output_format_of bare_without_additional] in *;
    (destruct (truthy output_format);
     [ destruct output_format; try discriminate; cbn in Hf; rewrite andb_true_r;
       match goal with
       | |- context [String.eqb ?u "CSV"] => destruct (String.eqb u "CSV")
       end; [discriminate|reflexivity]
     | reflexivity ]).
Qed.

Lemma truthy_not_none (v : pyval) : truthy v = true -> is_none v = false.
Proof. destruct v; [discriminate|reflexivity..]. Qed.

Lemma query_pairs_cons (self : APIUrl) (k : call) :
  constructed self ->
  query_pairs (url_of self k)
  = (quote_plus "username", quote_plus (username self))
    :: map quote_pair (present (parameters self k)).
Proof. intros Hc. now rewrite (query_pairs_url_of _ _ Hc). Qed.

(** ** The methods with one required argument *)

(** X4: [children], [hierarchy], [siblings], [postal_code_to_place_name],
    [wikipedia_fulltext_search] and [weather_station_icao] return a URL only
    when their required argument is truthy (so [geoname_id=0] or [q=""] is
    refused), and the URL then carries it, percent-encoded, as the pair right
    after the username. *)
Theorem X4_required_argument (k : call) (key : string) (v : pyval) (self : APIUrl)
    (url : string) :
  constructed self ->
  required_argument k = Some (key, v) ->
  outcome (run k) self = Ok url ->
  truthy v = true /\
  nth_error (query_pairs url) 1 = Some (key, quote_plus (str v)).
Proof.
  intros Hc Hk Hrun. rewrite outcome_behaviour in Hrun.
  apply behaviour_ok_checks in Hrun. destruct Hrun as (_ & Hp & _ & ->).
  rewrite (query_pairs_cons _ _ Hc).
  destruct k; try discriminate; cbn in Hk; injection Hk as <- <-;
    cbn [precondition] in Hp; (split; [exact Hp|]);
    cbn [parameters]; rewrite present_cons; unfold present1;
    rewrite (truthy_not_none _ Hp); reflexivity.
Qed.

Lemma X4_witness :
  truthy (PyStr "8935PJ") = true /\
  nth_error
    (query_pairs "https://secure.geonames.org/postalCodeLookupJSON?username=API_KEY&postalcode=8935PJ&country=NL")
    1 = Some ("postalcode", "8935PJ").
Proof.
  exact (X4_required_argument
           (PostalCodeToPlaceName (PyStr "8935PJ") (PyStr "NL") PyNone PyNone PyNone PyNone)
           "postalcode" (PyStr "8935PJ") api_key _ constructed_api_key eq_refl eq_refl).
Defined.

(** ** [neighbours] *)

(** X5: with an output format the helper accepts, [neighbours] returns a URL
    exactly when one of [geoname_id] and [country] is truthy and the other is
    not: giving neither, or both, raises the assertion error. *)
Theorem X5_neighbours_exactly_one (g c sec f : pyval) (self : APIUrl) :
  format_accepted false f = true ->
  outcome (neighbours g c sec f) self
  = if xorb (truthy g) (truthy c)
    then Ok (url_of self (Neighbours g c sec f))
    else Raise AssertionError.
Proof.
  intros Hf. change (neighbours g c sec f) with (run (Neighbours g c sec f)).
  rewrite outcome_behaviour. unfold behaviour.
  rewrite (format_accepted_no_error (Neighbours g c sec f) eq_refl Hf).
  cbn [precondition iterables any all existsb forallb].
  destruct (truthy g), (truthy c); reflexivity.
Qed.

Lemma X5_witness :
  outcome (neighbours (PyInt 2782113) (PyStr "DE") PyNone PyNone) api_key
  = Raise AssertionError.
Proof.
  exact (X5_neighbours_exactly_one (PyInt 2782113) (PyStr "DE") PyNone PyNone api_key
           eq_refl).
Defined.

(** ** [wikipedia_find_nearby] *)

(** X6: a URL [wikipedia_find_nearby] returns names the place in one of two
    ways: by a postal code, with at most one of the coordinates beside it, or
    by both coordinates and no postal code.  The coordinates are tested
    against [None], so the point (0, 0) is accepted. *)
Theorem X6_wikipedia_find_nearby_location
    (la lo p r l m c sec f : pyval) (self : APIUrl) (url : string) :
  constructed self ->
  outcome (wikipedia_find_nearby la lo p r l m c sec f) self = Ok url ->
  let pairs := query_pairs url in
  (count_key "postalcode" pairs = 1 /\ count_key "lat" pairs + count_key "lng" pairs <= 1)
  \/ (count_key "postalcode" pairs = 0 /\ count_key "lat" pairs = 1
      /\ count_key "lng" pairs = 1).
Proof.
  intros Hc Hrun.
  change (wikipedia_find_nearby la lo p r l m c sec f)
    with (run (WikipediaFindNearby la lo p r l m c sec f)) in Hrun.
  rewrite outcome_behaviour in Hrun.
  apply behaviour_ok_checks in Hrun. destruct Hrun as (_ & Hp & _ & ->).
  cbn [precondition] in Hp. cbv zeta.
  rewrite (query_pairs_url_of _ _ Hc). cbn [map parameters].
  change (quote_pair ("username", username self) :: ?x)
    with ([quote_pair ("username", username self)] ++ x)%list.
  rewrite ?present_cons, ?present_nil, ?map_app, ?count_key_app, ?count_key_present1.
  cbn [negb andb orb] in Hp.
  destruct (is_none p), (is_none la), (is_none lo); try discriminate; vm_compute;
    solve [left; split; [reflexivity|lia] | right; repeat split].
Qed.

Lemma X6_witness :
  let pairs :=
    query_pairs "https://secure.geonames.org/findNearbyWikipediaJSON?username=API_KEY&lat=0&lng=0" in
  (count_key "postalcode" pairs = 1 /\ count_key "lat" pairs + count_key "lng" pairs <= 1)
  \/ (count_key "postalcode" pairs = 0 /\ count_key "lat" pairs = 1
      /\ count_key "lng" pairs = 1).
Proof.
  exact (X6_wikipedia_find_nearby_location (PyInt 0) (PyInt 0) PyNone PyNone PyNone PyNone
           PyNone PyNone PyNone api_key _ constructed_api_key eq_refl).
Defined.

(** ** The bounding-box methods *)

(** X7: a URL that [cities_and_place_names_bounding_box],
    [wikipedia_bounding_box], [earthquakes_bounding_box] or
    [weather_station_bounding_box] returns starts its query string with the
    username and then the four edges, as [north], [east], [south], [west] in
    this order, each with the text of its argument. *)
Theorem X7_box_edges_in_order (k : call) (n e s w : pyval) (self : APIUrl)
    (url : string) :
  constructed self ->
  box_edges k = Some (n, e, s, w) ->
  outcome (run k) self = Ok url ->
  firstn 5 (query_pairs url)
  = [("username", quote_plus (username self)); ("north", quote_plus (str n));
     ("east", quote_plus (str e)); ("south", quote_plus (str s));
     ("west", quote_plus (str w))].
Proof.
  intros Hc Hk Hrun. rewrite outcome_behaviour in Hrun.
  apply behaviour_ok_checks in Hrun. destruct Hrun as (_ & Hp & _ & ->).
  rewrite (query_pairs_cons _ _ Hc).
  assert (Hnone : is_none n = false /\ is_none e = false /\ is_none s = false
                  /\ is_none w = false).
  { destruct k; try discriminate; cbn in Hk; injection Hk as <- <- <- <-;
      cbn [precondition] in Hp;
      try (now apply none_not_in_four);
      unfold all in Hp; cbn [forallb] in Hp;
      rewrite !andb_true_iff in Hp; destruct Hp as (Hn & He & Hs & Hw & _);
      auto using truthy_not_none. }
  destruct Hnone as (Hn & He & Hs & Hw).
  destruct k; try discriminate; cbn in Hk; injection Hk as -> -> -> ->;
    cbn [parameters]; rewrite !present_cons; unfold present1 at 1 2 3 4;
    rewrite Hn, He, Hs, Hw; reflexivity.
Qed.

Lemma X7_witness :
  firstn 5
    (query_pairs "https://secure.geonames.org/weatherJSON?username=API_KEY&north=44.1&east=-22.4&south=-9.9&west=55.2&maxRows=3")
  = [("username", "API_KEY"); ("north", "44.1"); ("east", "-22.4"); ("south", "-9.9");
     ("west", "55.2")].
Proof.
  exact (X7_box_edges_in_order
           (WeatherStationBoundingBox (PyFloat "44.1") (PyFloat "-22.4") (PyFloat "-9.9")
              (PyFloat "55.2") (PyInt 3) PyNone PyNone)
           (PyFloat "44.1") (PyFloat "-22.4") (PyFloat "-9.9") (PyFloat "55.2")
           api_key _ constructed_api_key eq_refl eq_refl).
Defined.

(** ** The output format in the path *)

(** X8: for every method but [search], the path of a returned URL is the base
    URL and the endpoint, followed by "JSON" when [output_format] reads "JSON"
    in upper case, or when it is falsy and the object's default is "JSON";
    a truthy [output_format] is then a [str], and one that reads neither
    "JSON" nor "CSV" (such as "xml", but also any unknown word) selects the
    bare endpoint without complaint. *)
Theorem X8_output_format_in_path (k : call) (self : APIUrl) (url : string) :
  constructed self ->
  is_search k = false ->
  outcome (run k) self = Ok url ->
  (truthy (output_format_of k) = false ->
   path_of url
   = base_of self k ++ end_point_of k
     ++ (if String.eqb (default_output_format self) "JSON" then "JSON" else "")) /\
  (truthy (output_format_of k) = true ->
   exists s,
     output_format_of k = PyStr s /\
     (upper s = "JSON" -> path_of url = base_of self k ++ end_point_of k ++ "JSON") /\
     (upper s <> "JSON" -> upper s <> "CSV" ->
      path_of url = base_of self k ++ end_point_of k)).
Proof.
  intros Hc Hk Hrun. rewrite outcome_behaviour in Hrun.
  apply behaviour_ok_checks in Hrun. destruct Hrun as (He & _ & _ & ->).
  rewrite (path_of_url_of _ _ Hc).
  assert (Hs : format_suffix self k = suffix_of self (output_format_of k))
    by (destruct k; [discriminate|reflexivity..]).
  rewrite Hs. unfold suffix_of. split.
  - now intros ->.
  - intros Ht. rewrite Ht.
    assert (Hstr : exists s, output_format_of k = PyStr s).
    { destruct k; try discriminate; cbn [format_error output_format_of] in *;
        rewrite Ht in He; destruct output_format; try discriminate; eauto. }
    destruct Hstr as [s Hf]. exists s. rewrite Hf. split; [reflexivity|]. split.
    + intros ->. reflexivity.
    + intros Hj Hcsv.
      destruct (String.eqb_spec (upper s) "JSON"); [contradiction|].
      destruct (String.eqb_spec (upper s) "CSV"); [contradiction|].
      now rewrite append_nil_r.
Qed.

Lemma X8_witness :
  (truthy (PyStr "rdf") = false ->
   path_of "https://secure.geonames.org/ocean?username=API_KEY&lat=1&lng=2"
   = "https://secure.geonames.org/oceanJSON") /\
  (truthy (PyStr "rdf") = true ->
   exists s,
     PyStr "rdf" = PyStr s /\
     (upper s = "JSON" ->
      path_of "https://secure.geonames.org/ocean?username=API_KEY&lat=1&lng=2"
      = "https://secure.geonames.org/oceanJSON") /\
     (upper s <> "JSON" -> upper s <> "CSV" ->
      path_of "https://secure.geonames.org/ocean?username=API_KEY&lat=1&lng=2"
      = "https://secure.geonames.org/ocean")).
Proof.
  exact (X8_output_format_in_path (Ocean (PyInt 1) (PyInt 2) PyNone PyNone (PyStr "rdf"))
           api_key _ constructed_api_key eq_refl eq_refl).
Defined.

(** ** The output format of [search] *)

Lemma last_app_nonempty {A} (l1 l2 : list A) (d : A) :
  l2 <> [] -> last (l1 ++ l2) d = last l2 d.
Proof.
  intros H. induction l1 as [|x l1 IH]; [reflexivity|].
  cbn [app]. cbn [last]. destruct (l1 ++ l2)%list eqn:E; [|exact IH].
  apply app_eq_nil in E. destruct E as [_ E]. contradiction.
Qed.

(** X9: [search] never puts the output format into the path: the path of a
    returned URL is the base URL followed by "search".  The format travels as
    the pair [type], which is always there, once, as the last pair of the
    query string, with the text of [output_format] or, when that is [None],
    the object's default. *)
Theorem X9_search_type_pair (a : SearchArgs.t) (self : APIUrl) (url : string) :
  constructed self ->
  outcome (search a) self = Ok url ->
  path_of url = base_of self (Search a) ++ "search" /\
  last (query_pairs url) ("", "")
  = ("type", quote_plus (str (if is_none (SearchArgs.output_format a)
                              then PyStr (default_output_format self)
                              else SearchArgs.output_format a))) /\
  count_key "type" (query_pairs url) = 1.
Proof.
  intros Hc Hrun. change (search a) with (run (Search a)) in Hrun.
  apply run_ok in Hrun. subst url.
  split; [now rewrite (path_of_url_of _ _ Hc)|].
  rewrite (query_pairs_url_of _ _ Hc). cbn [map].
  change (quote_pair ("username", username self) :: ?l)
    with ([quote_pair ("username", username self)] ++ l)%list.
  cbn [parameters].
  set (v := if is_none (SearchArgs.output_format a)
            then PyStr (default_output_format self)
            else SearchArgs.output_format a).
  assert (Hv : is_none v = false)
    by (unfold v; destruct (SearchArgs.output_format a); reflexivity).
  assert (Hlast : map quote_pair (present1 "type" v) = [("type", quote_plus (str v))])
    by (unfold present1; rewrite Hv; reflexivity).
  split.
  - rewrite ?present_app, ?map_app, ?present_cons, ?present_nil, ?map_app.
    cbn [map]. rewrite ?app_nil_r, Hlast, !app_assoc.
    now rewrite last_app_nonempty by discriminate.
  - destruct (none_not_in _);
      rewrite ?present_app, ?map_app, ?count_key_app, ?present_cons, ?present_nil,
        ?map_app, ?count_key_app, ?count_key_present1, ?count_key_each by reflexivity;
      rewrite Hv; reflexivity.
Qed.

Lemma X9_witness :
  path_of "https://secure.geonames.org/search?username=API_KEY&q=x&type=rdf"
  = "https://secure.geonames.org/search" /\
  last (query_pairs "https://secure.geonames.org/search?username=API_KEY&q=x&type=rdf")
    ("", "") = ("type", "rdf") /\
  count_key "type"
    (query_pairs "https://secure.geonames.org/search?username=API_KEY&q=x&type=rdf") = 1.
Proof.
  exact (X9_search_type_pair
           {| SearchArgs.q := PyStr "x"; SearchArgs.name := PyNone;
              SearchArgs.name_equals := PyNone; SearchArgs.name_starts_with := PyNone;
              SearchArgs.max_rows := PyNone; SearchArgs.start_row := PyNone;
              SearchArgs.country := One PyNone; SearchArgs.country_bias := PyNone;
              SearchArgs.continent_code := PyNone; SearchArgs.admin_code1 := PyNone;
              SearchArgs.admin_code2 := PyNone; SearchArgs.admin_code3 := PyNone;
              SearchArgs.feature_class := One PyNone; SearchArgs.feature_code := One PyNone;
              SearchArgs.cities := PyNone; SearchArgs.language := PyNone;
              SearchArgs.style := PyNone; SearchArgs.is_name_required := PyNone;
              SearchArgs.tag := PyNone; SearchArgs.operator := PyNone;
              SearchArgs.charset := PyNone; SearchArgs.fuzzy := PyNone;
              SearchArgs.north := PyNone; SearchArgs.east := PyNone;
              SearchArgs.south := PyNone; SearchArgs.west := PyNone;
              SearchArgs.search_language := PyNone; SearchArgs.order_by := PyNone;
              SearchArgs.include_bbox := PyNone; SearchArgs.secure := PyNone;
              SearchArgs.output_format := PyStr "rdf" |}
           api_key _ constructed_api_key eq_refl).
Defined.

(** ** Dates *)

(** [timezone] and [earthquakes_bounding_box] treat a [datetime.date]
    and the text [strftime] gives for it alike: the two calls have the same
    outcome. *)
Theorem date_or_text (y m d : nat) (self : APIUrl) :
  (forall la lo r l sec f,
     run (Timezone la lo r l (PyDate y m d) sec f) self
     = run (Timezone la lo r l (PyStr (strftime_ymd y m d)) sec f) self) /\
  (forall n e s w mm mr sec f,
     run (EarthquakesBoundingBox n e s w (PyDate y m d) mm mr sec f) self
     = run (EarthquakesBoundingBox n e s w (PyStr (strftime_ymd y m d)) mm mr sec f) self).
Proof. split; intros; rewrite !run_behaviour; reflexivity. Qed.

(** ** Arguments that may be lists *)

Lemma present_each_filter (key : string) (vs : list pyval) :
  present (map (fun v => (key, v)) vs)
  = present (map (fun v => (key, v)) (filter (fun v => negb (is_none v)) vs)).
Proof.
  induction vs as [|v vs IH]; [reflexivity|].
  cbn [map filter]. destruct (is_none v) eqn:Hv; cbn [negb].
  - now rewrite present_cons, IH; unfold present1; rewrite Hv.
  - cbn [map]. now rewrite !present_cons, IH.
Qed.

(** For [country], in [country_info] and in [search], a [str] is the same
    as the list that holds just it. *)
Theorem country_str_is_singleton (s : string) (self : APIUrl) :
  (forall l sec f,
     run (CountryInfo (One (PyStr s)) l sec f) self
     = run (CountryInfo (Many [PyStr s]) l sec f) self) /\
  (forall a,
     run (Search (SearchArgs.with_country (One (PyStr s)) a)) self
     = run (Search (SearchArgs.with_country (Many [PyStr s]) a)) self).
Proof. split; intros; rewrite !run_behaviour; reflexivity. Qed.

(** X10: for [country], in [country_info] and in [search], the [None]
    elements of a list count for nothing: the call has the outcome of the
    call with the list of the other elements; in particular a list of [None]s
    or the empty list is the same as no [country] at all. *)
Theorem X10_none_elements_skipped (vs : list pyval) (self : APIUrl) :
  (forall l sec f,
     run (CountryInfo (Many vs) l sec f) self
     = run (CountryInfo (Many (filter (fun v => negb (is_none v)) vs)) l sec f) self) /\
  (forall a,
     run (Search (SearchArgs.with_country (Many vs) a)) self
     = run (Search (SearchArgs.with_country
                      (Many (filter (fun v => negb (is_none v)) vs)) a)) self) /\
  (filter (fun v => negb (is_none v)) vs = [] ->
   (forall l sec f,
      run (CountryInfo (Many vs) l sec f) self = run (CountryInfo (One PyNone) l sec f) self)
   /\
   (forall a,
      run (Search (SearchArgs.with_country (Many vs) a)) self
      = run (Search (SearchArgs.with_country (One PyNone) a)) self)).
Proof.
  assert (Hinfo : forall vs' l sec f,
            present (map (fun v => ("country", v)) vs)
            = present (map (fun v => ("country", v)) vs') ->
            run (CountryInfo (Many vs) l sec f) self
            = run (CountryInfo (Many vs') l sec f) self).
  { intros vs' l sec f H. rewrite !run_behaviour. f_equal.
    unfold behaviour, url_of.
    cbn [format_error precondition iterables iterable parameters each base_of
         secure_of end_point_of format_suffix output_format_of bare_without_additional].
    now rewrite !present_app, H. }
  assert (Hsearch : forall vs' a,
            present (map (fun v => ("country", v)) vs)
            = present (map (fun v => ("country", v)) vs') ->
            run (Search (SearchArgs.with_country (Many vs) a)) self
            = run (Search (SearchArgs.with_country (Many vs') a)) self).
  { intros vs' a H. rewrite !run_behaviour. f_equal.
    unfold behaviour, url_of. destruct a.
    cbn [format_error precondition iterables iterable parameters each base_of
         secure_of end_point_of format_suffix output_format_of
         SearchArgs.with_country SearchArgs.q SearchArgs.name SearchArgs.name_equals
         SearchArgs.name_starts_with SearchArgs.max_rows SearchArgs.start_row
         SearchArgs.country SearchArgs.country_bias SearchArgs.continent_code
         SearchArgs.admin_code1 SearchArgs.admin_code2 SearchArgs.admin_code3
         SearchArgs.feature_class SearchArgs.feature_code SearchArgs.cities
         SearchArgs.language SearchArgs.style SearchArgs.is_name_required
         SearchArgs.tag SearchArgs.operator SearchArgs.charset SearchArgs.fuzzy
         SearchArgs.north SearchArgs.east SearchArgs.south SearchArgs.west
         SearchArgs.search_language SearchArgs.order_by SearchArgs.include_bbox
         SearchArgs.secure SearchArgs.output_format andb].
    rewrite (present_app _ (each "country" (Many vs) ++ _)), (present_app (each _ _)).
    rewrite (present_app _ (each "country" (Many vs') ++ _)), (present_app (each _ _)).
    cbn [each]. now rewrite H. }
  split; [|split].
  - intros. apply Hinfo, present_each_filter.
  - intros. apply Hsearch, present_each_filter.
  - intros Hnil.
    assert (H0 : present (map (fun v => ("country", v)) vs)
                 = present (map (fun v => ("country", v)) [])).
    { rewrite present_each_filter, Hnil. reflexivity. }
    split; intros.
    + rewrite (Hinfo [] l sec f H0). rewrite !run_behaviour. reflexivity.
    + rewrite (Hsearch [] a H0). rewrite !run_behaviour. reflexivity.
Qed.

Lemma X10_witness :
  (forall l sec f,
     run (CountryInfo (Many [PyNone; PyNone]) l sec f) api_key
     = run (CountryInfo (One PyNone) l sec f) api_key) /\
  (forall a,
     run (Search (SearchArgs.with_country (Many [PyNone; PyNone]) a)) api_key
     = run (Search (SearchArgs.with_country (One PyNone) a)) api_key).
Proof.
  exact (proj2 (proj2 (X10_none_elements_skipped [PyNone; PyNone] api_key)) eq_refl).
Defined.

(** ** The constructor *)

(** X11: the constructor returns an object only for a [str] username, and
    the object then holds, and after any calls still holds, that username,
    one of the two base URLs of the service, and "JSON" or "XML" as its
    default output format; a default format in another spelling ("json") is
    refused, although the methods read their own [output_format] in any
    case. *)
Theorem X11_constructor_invariant (u s f : pyval) (self : APIUrl) (history : list call) :
  __init__ u s f = Ok self ->
  u = PyStr (username (after history self)) /\
  (_base_url (after history self) = "https://secure.geonames.org/" \/
   _base_url (after history self) = "http://api.geonames.org/") /\
  (f = PyStr "JSON" \/ f = PyStr "XML") /\
  default_output_format (after history self) = str f.
Proof.
  intros H. rewrite after_self. unfold __init__ in H.
  destruct u as [| | | |name|]; try discriminate.
  destruct s as [|b| | | |]; try discriminate.
  cbn [isinstance_str isinstance_bool negb] in H.
  destruct f as [| | | |fmt|]; try discriminate.
  cbn [in_strings existsb] in H.
  destruct (String.eqb_spec fmt "JSON") as [->|Hj];
    [|destruct (String.eqb_spec fmt "XML") as [->|Hx]; [|discriminate]];
    cbn in H; injection H as <-; cbn;
    (repeat split; [destruct b; auto | auto]).
Qed.

Lemma X11_witness :
  PyStr "API_KEY"
  = PyStr (username (after [Ocean PyNone PyNone PyNone PyNone PyNone] api_key)) /\
  (_base_url (after [Ocean PyNone PyNone PyNone PyNone PyNone] api_key)
   = "https://secure.geonames.org/" \/
   _base_url (after [Ocean PyNone PyNone PyNone PyNone PyNone] api_key)
   = "http://api.geonames.org/") /\
  (PyStr "JSON" = PyStr "JSON" \/ PyStr "JSON" = PyStr "XML") /\
  default_output_format (after [Ocean PyNone PyNone PyNone PyNone PyNone] api_key)
  = str (PyStr "JSON").
Proof.
  exact (X11_constructor_invariant (PyStr "API_KEY") (PyBool true) (PyStr "JSON") api_key
           [Ocean PyNone PyNone PyNone PyNone PyNone] eq_refl).
Defined.

(** ** [country_info] *)

(** X12: [country_info] asserts nothing: it never raises the assertion error,
    and it returns a URL exactly when [country] is [None], a [str] or a list
    and [output_format] is falsy or a [str]; called without arguments it
    returns the endpoint with the username as its only pair. *)
Theorem X12_country_info_no_precondition (c : pyarg) (l sec f : pyval) (self : APIUrl) :
  is_ok (outcome (country_info c l sec f) self) = format_accepted true f && iterable c /\
  outcome (country_info c l sec f) self <> Raise AssertionError /\
  outcome (country_info (One PyNone) PyNone PyNone PyNone) self
  = Ok (_base_url self ++ "countryInfo"
        ++ (if String.eqb (default_output_format self) "JSON" then "JSON" else "")
        ++ "?username=" ++ quote_plus (username self)).
Proof.
  change (country_info ?c ?l ?sec ?f) with (run (CountryInfo c l sec f)).
  rewrite !outcome_behaviour. unfold behaviour, format_accepted.
  cbn [format_error output_format_of bare_without_additional precondition iterables].
  split; [|split].
  - destruct (truthy f); [destruct f; cbn; try reflexivity; rewrite andb_false_r|];
      destruct (iterable c); reflexivity.
  - destruct (truthy f); [destruct f; cbn; try discriminate; rewrite andb_false_r|];
      destruct (iterable c); discriminate.
  - cbn. unfold url_of, base_of, format_suffix, suffix_of, urlencode. cbn.
    destruct (String.eqb (default_output_format self) "JSON"); cbn;
      now rewrite ?append_nil_r.
Qed.

(** ** The date pair *)

(** X13: when [timezone] or [earthquakes_bounding_box] is given a date and
    returns a URL, the date is the last pair of the query string, under the
    key [date]: a [datetime.date] as [strftime("%Y-%m-%d")] formats it (the
    year as it is, month and day on two digits; not the four-digit year of
    [str]), any other value as its own text. *)
Theorem X13_date_pair_last (k : call) (d : pyval) (self : APIUrl) (url : string) :
  constructed self ->
  date_argument k = Some d ->
  is_none d = false ->
  outcome (run k) self = Ok url ->
  last (query_pairs url) ("", "")
  = ("date",
     quote_plus (match d with
                 | PyDate y m dd =>
                     string_of_nat y ++ "-" ++ zero_pad 2 m ++ "-" ++ zero_pad 2 dd
                 | _ => str d
                 end)).
Proof.
  intros Hc Hk Hd Hrun. apply run_ok in Hrun. subst url.
  rewrite (query_pairs_url_of _ _ Hc). cbn [map].
  change (quote_pair ("username", username self) :: ?l)
    with ([quote_pair ("username", username self)] ++ l)%list.
  assert (Hlast : map quote_pair (present1 "date" (date_text d))
                  = [("date",
                      quote_plus (match d with
                                  | PyDate y m dd =>
                                      string_of_nat y ++ "-" ++ zero_pad 2 m ++ "-"
                                      ++ zero_pad 2 dd
                                  | _ => str d
                                  end))])
    by (destruct d; try discriminate; reflexivity).
  destruct k; try discriminate; cbn in Hk; injection Hk as ->;
    cbn [parameters];
    rewrite ?present_cons, ?present_nil, ?map_app; cbn [map];
    rewrite ?app_nil_r, Hlast, !app_assoc;
    now rewrite last_app_nonempty by discriminate.
Qed.

Lemma X13_witness :
  last (query_pairs "https://secure.geonames.org/timezoneJSON?username=API_KEY&lat=51.2277&lng=6.7735&date=999-01-02")
    ("", "") = ("date", "999-01-02").
Proof.
  exact (X13_date_pair_last
           (Timezone (PyFloat "51.2277") (PyFloat "6.7735") PyNone PyNone (PyDate 999 1 2)
              PyNone PyNone)
           (PyDate 999 1 2) api_key _ constructed_api_key eq_refl eq_refl eq_refl).
Defined.

(** ** [cities_and_place_names_bounding_box] *)

(** X14: with an output format the helper accepts,
    [cities_and_place_names_bounding_box] returns a URL exactly when none of
    the four edges is [None]; an edge that is given but falsy, such as 0, is
    accepted. *)
Theorem X14_cities_box_not_none (n e s w l m sec f : pyval) (self : APIUrl) :
  format_accepted false f = true ->
  outcome (cities_and_place_names_bounding_box n e s w l m sec f) self
  = if is_none n || is_none e || is_none s || is_none w
    then Raise AssertionError
    else Ok (url_of self (CitiesAndPlaceNamesBoundingBox n e s w l m sec f)).
Proof.
  intros Hf.
  change (cities_and_place_names_bounding_box n e s w l m sec f)
    with (run (CitiesAndPlaceNamesBoundingBox n e s w l m sec f)).
  rewrite outcome_behaviour. unfold behaviour.
  rewrite (format_accepted_no_error (CitiesAndPlaceNamesBoundingBox n e s w l m sec f)
             eq_refl Hf).
  cbn [precondition iterables none_not_in forallb].
  destruct (is_none n), (is_none e), (is_none s), (is_none w); reflexivity.
Qed.

Lemma X14_witness :
  outcome (cities_and_place_names_bounding_box (PyInt 0) (PyInt 0) (PyInt 0) (PyInt 0)
             PyNone PyNone PyNone PyNone) api_key
  = Ok "https://secure.geonames.org/citiesJSON?username=API_KEY&north=0&east=0&south=0&west=0".
Proof.
  exact (X14_cities_box_not_none (PyInt 0) (PyInt 0) (PyInt 0) (PyInt 0) PyNone PyNone
           PyNone PyNone api_key eq_refl).
Defined.

(** ** An output format that is not a [str] *)

(** X15: a truthy [output_format] that is not a [str] (such as [True] or 5)
    makes every method but [search] raise an [AttributeError], whatever the
    other arguments, before any assertion is reached. *)
Theorem X15_output_format_not_str (k : call) (self : APIUrl) :
  is_search k = false ->
  truthy (output_format_of k) = true ->
  isinstance_str (output_format_of k) = false ->
  outcome (run k) self = Raise AttributeError.
Proof.
  intros Hk Ht Hs. rewrite outcome_behaviour. unfold behaviour.
  assert (He : format_error k = Some AttributeError).
  { destruct k; try discriminate; cbn [format_error output_format_of] in *;
      rewrite Ht; destruct output_format; try discriminate; reflexivity. }
  now rewrite He.
Qed.

Lemma X15_witness :
  outcome (run (Children PyNone PyNone PyNone PyNone (PyInt 5))) api_key
  = Raise AttributeError.
Proof.
  exact (X15_output_format_not_str (Children PyNone PyNone PyNone PyNone (PyInt 5)) api_key
           eq_refl eq_refl eq_refl).
Defined.
